(** * A shallow embedding of the RPG combat engine (package [rpg_game])

    The Python classes [Character], [Boss], [Sidekick], [Villain],
    [GameLogger], [Inventory] and [Game] are embedded as Rocq modules of
    the same names.  Objects are records, methods are functions that pass
    the mutated objects explicitly, Python integers are [Z], Python floats
    are binary64 values of the standard library's [SpecFloat], exceptions
    are an error result.  Methods of [Game], which read the console and
    the random source, live in a state-and-exception monad over a [World]
    record.

    Modelled: the entity model ([take_damage], [calculate_damage],
    [gain_experience], [level_up], the [attack] of each class, the two
    abilities), the combat log, the inventory, and of [Game] the turn loop
    [combat] with [use_item], [add_loot] and [get_valid_input], and, in
    module [Run], the set-up and the sequencing of a game ([show_intro],
    [setup_game], [choose_weapon], [choose_sidekick],
    [handle_boss_battles], [run]).  Left out: everything that only
    prints, the text of the log messages, [main], and
    [Boss.special_attack], which the game never calls and which makes
    the health of its target a float.

    The [items] dict of the inventory is a [gmap]; where the source
    iterates over it, the model iterates over [map_to_list], whose order
    is the order of the keys.  No property below depends on that order. *)

From Stdlib Require Import ZArith QArith Qround String Ascii List Lia Bool.
From Stdlib Require Import DecimalString.
From Stdlib Require Import Floats.SpecFloat Floats.PrimFloat Floats.FloatOps.
From stdpp Require Import gmap strings.

Import ListNotations.
Local Open Scope string_scope.
Local Open Scope Z_scope.

(** ** Python primitives used by the game *)

Module Py.

(** The built-in exceptions the modelled code can raise. *)
Inductive exn : Type :=
| AttributeError
| TypeError
| IndexError
| ValueError
| OverflowError
| EOFError.

(** Result of a Python expression: a value, or a raised exception. *)
Inductive result (A : Type) : Type :=
| Ok (a : A)
| Err (e : exn).
Arguments Ok {A} a.
Arguments Err {A} e.

Definition rbind {A B} (r : result A) (k : A -> result B) : result B :=
  match r with
  | Ok a => k a
  | Err e => Err e
  end.

(** *** Strings (texts over ASCII) *)

(** [c.lower()] on one character. *)
Definition lower_ascii (c : ascii) : ascii :=
  let n := nat_of_ascii c in
  if (Nat.leb 65 n && Nat.leb n 90)%bool then ascii_of_nat (n + 32) else c.

(** [s.lower()]. *)
Fixpoint lower (s : string) : string :=
  match s with
  | EmptyString => EmptyString
  | String c s' => String (lower_ascii c) (lower s')
  end.

(** [c.isspace()] for an ASCII character. *)
Definition isspace (c : ascii) : bool :=
  let n := nat_of_ascii c in
  ((Nat.leb 9 n && Nat.leb n 13) || (Nat.leb 28 n && Nat.leb n 32))%bool.

Fixpoint lstrip (s : string) : string :=
  match s with
  | EmptyString => EmptyString
  | String c s' => if isspace c then lstrip s' else s
  end.

Fixpoint rev_onto (s acc : string) : string :=
  match s with
  | EmptyString => acc
  | String c s' => rev_onto s' (String c acc)
  end.

Definition rev (s : string) : string := rev_onto s EmptyString.

(** [s.strip()], for ASCII text: the characters stripped are the ASCII
    white space.  Python strips further characters outside ASCII (such as
    U+00A0), so a property that depends on which console line is accepted
    is stated for ASCII lines. *)
Definition strip (s : string) : string := rev (lstrip (rev (lstrip s))).

(** [str(n)] for a natural number. *)
Definition str_of_nat (n : nat) : string :=
  NilEmpty.string_of_uint (Nat.to_uint n).

(** [x in xs] for a list of strings. *)
Definition str_in (x : string) (xs : list string) : bool :=
  existsb (String.eqb x) xs.

(** Truth value of an optional string ([None] and the empty string are
    false). *)
Definition truthy_str (o : option string) : bool :=
  match o with
  | Some s => negb (String.eqb s EmptyString)
  | None => false
  end.

(** *** Floats (IEEE 754 binary64) *)

Definition prec : Z := 53.
Definition emax : Z := 1024.

(** The float literals of the source, as binary64 values. *)
Definition float_1_2 : spec_float := S754_finite false 5404319552844595 (-52).
Definition float_0_25 : spec_float := S754_finite false 4503599627370496 (-54).
Definition float_0_75 : spec_float := S754_finite false 6755399441055744 (-53).
Definition float_0_2 : spec_float := S754_finite false 7205759403792794 (-55).
Definition float_0_5 : spec_float := S754_finite false 4503599627370496 (-53).
Definition float_0_3 : spec_float := S754_finite false 5404319552844595 (-54).

(** Conversion of an [int] operand to [float] (round to nearest even);
    CPython raises [OverflowError] when the integer is out of range. *)
Definition float_of_int (n : Z) : result spec_float :=
  match binary_normalize prec emax n 0 false with
  | S754_infinity _ => Err OverflowError
  | f => Ok f
  end.

(** [n * c] for an [int] n and a [float] c. *)
Definition int_mul_float (n : Z) (c : spec_float) : result spec_float :=
  rbind (float_of_int n) (fun x => Ok (SFmul prec emax x c)).

(** [int(f)]: truncation toward zero. *)
Definition int_of_float (f : spec_float) : result Z :=
  match f with
  | S754_zero _ => Ok 0
  | S754_finite s m e =>
      Ok (cond_Zopp s (if 0 <=? e then Z.pos m * 2 ^ e
                       else Z.pos m / 2 ^ (- e)))
  | S754_infinity _ => Err OverflowError
  | S754_nan => Err ValueError
  end.

(** [int(n * c)]. *)
Definition int_of_mul (n : Z) (c : spec_float) : result Z :=
  rbind (int_mul_float n c) int_of_float.


(** [x < c] on floats. *)
Definition float_lt (x c : spec_float) : bool := SFltb x c.

End Py.

Notation "x <-? r ; k" := (Py.rbind r (fun x => k))
  (at level 100, r at next level, right associativity, only parsing).

(** ** Auxiliary definitions for reasoning about binary64 rounding *)

Module Binary64.



End Binary64.

(** ** Weapons *)

Module Weapon.

(** Modelled from the spec: [rpg_game/weapon.py] is not part of the
    sources at hand.  A weapon is what [Character.__init__] builds with
    [Weapon(weapon_name, weapon_damage)] and what the methods read back:
    a [name] and a flat [damage_bonus] (spec, section 3: "optional weapon
    reference (name + flat damage bonus)"). *)
Record t : Type := Build { name : string; damage_bonus : Z }.

End Weapon.

(** ** The combat log *)

Module GameLogger.

(** One element of [log_history] (a dict with these five keys). *)
Record entry : Type := Entry {
  timestamp : string;
  attacker : string;
  defender : string;
  damage : Z;
  ability : string
}.

Record t : Type := Build {
  log_to_console : bool;
  log_history : list entry
}.

(** [GameLogger(log_to_console=True)]. *)
Definition init (log_to_console : bool) : t :=
  {| log_to_console := log_to_console; log_history := [] |}.

(** [log_combat(attacker, defender, damage, ability=None)].  The method
    reads only the [name] of the two characters, so it takes the names.
    [now] is what [datetime.datetime.now().strftime("%H:%M:%S")] yields
    at the call.  The message printed to the console is not modelled. *)
Definition log_combat (now : string) (self : t)
    (attacker_name defender_name : string) (damage : Z)
    (ability : option string) : t :=
  {| log_to_console := log_to_console self;
     log_history :=
       (log_history self ++
       [ {| timestamp := now;
            attacker := attacker_name;
            defender := defender_name;
            damage := damage;
            ability := if Py.truthy_str ability
                       then default EmptyString ability
                       else "basic_attack" |} ])%list |}.

Definition get_combat_history (self : t) : list entry := log_history self.

End GameLogger.

(** ** Characters *)

Module Character.

(** The class of an object: [Character] itself or one of its three
    subclasses, with the attribute the subclass adds. *)
Inductive cls : Type :=
| Character
| Boss
| Sidekick (support_ability : string)
| Villain (special_ability : string).

Record t : Type := Build {
  class : cls;
  name : string;
  _health : Z;
  damage : Z;
  weapon : option Weapon.t;
  is_boss : bool;
  level : Z;
  experience : Z;
  experience_to_next_level : Z;
  debug_mode : bool
}.

(** [calculate_experience_to_next_level], a function of the level. *)
Definition calculate_experience_to_next_level (level : Z) : Z := 100 * level.

(** [Character.__init__]. *)
Definition init (name : string) (health damage : Z)
    (weapon_name : option string) (weapon_damage : Z)
    (level experience : Z) (debug_mode : bool) : t :=
  {| class := Character;
     name := name;
     _health := health;
     damage := damage;
     weapon := if Py.truthy_str weapon_name
               then Some (Weapon.Build (default EmptyString weapon_name)
                            weapon_damage)
               else None;
     is_boss := false;
     level := level;
     experience := experience;
     experience_to_next_level := calculate_experience_to_next_level level;
     debug_mode := debug_mode |}.

(** [self.support_ability] and [self.special_ability]: attributes that
    only instances of [Sidekick], respectively [Villain], have. *)
Definition support_ability (self : t) : Py.result string :=
  match class self with
  | Sidekick a => Py.Ok a
  | _ => Py.Err Py.AttributeError
  end.

Definition special_ability (self : t) : Py.result string :=
  match class self with
  | Villain a => Py.Ok a
  | _ => Py.Err Py.AttributeError
  end.

Definition get_health (self : t) : Z := _health self.

Definition with_health (self : t) (h : Z) : t :=
  Build (class self) (name self) h (damage self) (weapon self)
        (is_boss self) (level self) (experience self)
        (experience_to_next_level self) (debug_mode self).

(** [set_health(new_health)]. *)
Definition set_health (self : t) (new_health : Z) : t :=
  with_health self (Z.max 0 new_health).

(** [take_damage(damage)]. *)
Definition take_damage (self : t) (damage : Z) : t :=
  set_health self (get_health self - damage).

(** [calculate_damage(base_damage)]. *)
Definition calculate_damage (self : t) (base_damage : Z) : Z :=
  match weapon self with
  | Some w => base_damage + Weapon.damage_bonus w
  | None => base_damage
  end.

Definition is_alive (self : t) : bool := 0 <? get_health self.

(** [level_up()]: the two [int(... * 1.2)] go through binary64.  When one
    of them raises, the result is the exception alone: the attributes the
    source has assigned by then (the level, and the health when the damage
    raises) are not kept, and no property below reads the object after
    the exception. *)
Definition level_up (self : t) : Py.result t :=
  let level' := level self + 1 in
  health' <-? Py.int_of_mul (_health self) Py.float_1_2;
  damage' <-? Py.int_of_mul (damage self) Py.float_1_2;
  Py.Ok (Build (class self) (name self) health' damage' (weapon self)
               (is_boss self) level' 0
               (calculate_experience_to_next_level level')
               (debug_mode self)).

(** [gain_experience(amount)]: the returned flag and the mutated object. *)
Definition gain_experience (self : t) (amount : Z) : Py.result (bool * t) :=
  let self1 :=
    Build (class self) (name self) (_health self) (damage self)
          (weapon self) (is_boss self) (level self)
          (experience self + amount)
          (experience_to_next_level self) (debug_mode self) in
  if experience_to_next_level self1 <=? experience self1
  then self2 <-? level_up self1; Py.Ok (true, self2)
  else Py.Ok (false, self1).

(** [Character.attack(target, logger)], inherited by [Boss]: the total
    damage, the target and the logger after the call. *)
Definition attack (now : string) (self target : t) (logger : GameLogger.t)
  : Z * t * GameLogger.t :=
  let total_damage := calculate_damage self (damage self) in
  let logger := GameLogger.log_combat now logger (name self) (name target)
                  total_damage None in
  let target := take_damage target total_damage in
  (total_damage, target, logger).

End Character.

Module Boss.

(** [Boss.__init__]. *)
Definition init (name : string) (health damage : Z)
    (weapon_name : option string) (weapon_damage : Z) : Character.t :=
  let c := Character.init name health damage weapon_name weapon_damage
             1 0 false in
  Character.Build Character.Boss (Character.name c) (Character._health c)
    (Character.damage c) (Character.weapon c) true (Character.level c)
    (Character.experience c) (Character.experience_to_next_level c)
    (Character.debug_mode c).

End Boss.

Module Sidekick.

(** [Sidekick.__init__]. *)
Definition init (name : string) (health damage : Z)
    (weapon_name : option string) (weapon_damage : Z)
    (support_ability : string) : Character.t :=
  let c := Character.init name health damage weapon_name weapon_damage
             1 0 false in
  Character.Build (Character.Sidekick support_ability) (Character.name c)
    (Character._health c) (Character.damage c) (Character.weapon c) false
    (Character.level c) (Character.experience c)
    (Character.experience_to_next_level c) (Character.debug_mode c).

(** [use_support_ability(target, logger)].  No character has a
    [_max_health] attribute, so [max_health] is [float('inf')]; the
    subtraction [max_health - target.get_health()] converts the health to
    a float and yields infinity, and [min(heal_amount, inf)] is
    [heal_amount]. *)
Definition use_support_ability (now : string) (self target : Character.t)
    (logger : GameLogger.t) : Py.result (Character.t * GameLogger.t) :=
  support_ability <-? Character.support_ability self;
  if String.eqb (Py.lower support_ability) "heal" then
    let heal_amount :=
      if String.eqb (Character.name self) "Healing Spirit" then 15
      else Character.damage self / 2 in
    let target_health := Character.get_health target + heal_amount in
    _ <-? Py.float_of_int (Character.get_health target);
    let actual_heal := heal_amount in
    if 0 <? actual_heal then
      Py.Ok (Character.set_health target target_health,
             GameLogger.log_combat now logger (Character.name self)
               (Character.name target) (- actual_heal)
               (Some support_ability))
    else Py.Ok (target, logger)
  else Py.Ok (target, logger).

(** [Sidekick.attack(target, logger)]. *)
Definition attack (now : string) (self target : Character.t)
    (logger : GameLogger.t) : Py.result (Z * Character.t * GameLogger.t) :=
  reduced_damage <-? Py.int_of_mul (Character.damage self) Py.float_0_75;
  let total_damage := Character.calculate_damage self reduced_damage in
  let target := Character.take_damage target total_damage in
  let logger := GameLogger.log_combat now logger (Character.name self)
                  (Character.name target) total_damage None in
  Py.Ok (total_damage, target, logger).

End Sidekick.

Module Villain.

(** [Villain.__init__]. *)
Definition init (name : string) (health damage : Z)
    (weapon_name : option string) (weapon_damage : Z)
    (special_ability : string) : Character.t :=
  let c := Character.init name health damage weapon_name weapon_damage
             1 0 false in
  Character.Build (Character.Villain special_ability) (Character.name c)
    (Character._health c) (Character.damage c) (Character.weapon c) true
    (Character.level c) (Character.experience c)
    (Character.experience_to_next_level c) (Character.debug_mode c).

(** [use_special_ability(target, logger)]. *)
Definition use_special_ability (now : string) (self target : Character.t)
    (logger : GameLogger.t) : Py.result (Z * Character.t * GameLogger.t) :=
  special_ability <-? Character.special_ability self;
  if String.eqb (Py.lower special_ability) "dark magic" then
    let base_damage := Character.damage self * 2 in
    let total_damage := Character.calculate_damage self base_damage in
    let target := Character.take_damage target total_damage in
    let logger := GameLogger.log_combat now logger (Character.name self)
                    (Character.name target) total_damage
                    (Some special_ability) in
    Py.Ok (total_damage, target, logger)
  else Py.Ok (0, target, logger).

(** [Villain.attack(target, logger)]; [draw] is the value of the call
    [random.random()]. *)
Definition attack (draw : spec_float) (now : string)
    (self target : Character.t) (logger : GameLogger.t)
  : Py.result (Z * Character.t * GameLogger.t) :=
  if Py.float_lt draw Py.float_0_2 then
    use_special_ability now self target logger
  else
    bonus_damage <-? Py.int_of_mul (Character.damage self) Py.float_0_25;
    let total_damage :=
      Character.calculate_damage self (Character.damage self + bonus_damage) in
    let target := Character.take_damage target total_damage in
    let logger := GameLogger.log_combat now logger (Character.name self)
                    (Character.name target) total_damage None in
    Py.Ok (total_damage, target, logger).

End Villain.

(** ** Items and the inventory *)

Module Item.

(** The objects handed to the inventory: instances of [Item], of its
    subclasses [Consumable] and [Armor], and of [Weapon]. *)
Inductive t : Type :=
| Item (name description : string) (value : Z)
| Consumable (name description : string) (value heal_amount : Z)
| Armor (name description : string) (value defense_bonus : Z)
| Weapon (w : Weapon.t).

Definition name (i : t) : string :=
  match i with
  | Item n _ _ | Consumable n _ _ _ | Armor n _ _ _ => n
  | Weapon w => Weapon.name w
  end.

(** [i.value]; a weapon is known to carry a name and a bonus only. *)
Definition value (i : t) : Py.result Z :=
  match i with
  | Item _ _ v | Consumable _ _ v _ | Armor _ _ v _ => Py.Ok v
  | Weapon _ => Py.Err Py.AttributeError
  end.

Definition heal_amount (i : t) : Py.result Z :=
  match i with
  | Consumable _ _ _ h => Py.Ok h
  | _ => Py.Err Py.AttributeError
  end.

(** [isinstance(i, Consumable)], [isinstance(i, Armor)],
    [isinstance(i, Weapon)]. *)
Definition is_consumable (i : t) : bool :=
  match i with Consumable _ _ _ _ => true | _ => false end.
Definition is_armor (i : t) : bool :=
  match i with Armor _ _ _ _ => true | _ => false end.
Definition is_weapon (i : t) : bool :=
  match i with Weapon _ => true | _ => false end.

End Item.

Module Inventory.

(** A value of the [items] dict: [{'item': Item, 'quantity': int}]. *)
Record stack : Type := Stack { item : Item.t; quantity : Z }.

(** The [equipment] dict, which always has the keys ['weapon'] and
    ['armor']. *)
Record slots : Type := Slots { weapon : option Item.t; armor : option Item.t }.

Record t : Type := Build {
  items : gmap string stack;
  equipment : slots;
  gold : Z
}.

(** [Inventory.__init__]. *)
Definition init : t :=
  {| items := ∅; equipment := Slots None None; gold := 0 |}.

(** [add_item(item, quantity=1)]. *)
Definition add_item (self : t) (item : Item.t) (quantity : Z) : t :=
  match items self !! Item.name item with
  | Some st =>
      Build (<[Item.name item := Stack (Inventory.item st)
                                       (Inventory.quantity st + quantity)]>
               (items self))
            (equipment self) (gold self)
  | None =>
      Build (<[Item.name item := Stack item quantity]> (items self))
            (equipment self) (gold self)
  end.

(** [remove_item(item_name, quantity=1)]: the returned flag and the
    inventory after the call. *)
Definition remove_item (self : t) (item_name : string) (quantity : Z)
  : bool * t :=
  match items self !! item_name with
  | Some st =>
      if quantity <=? Inventory.quantity st then
        let q := Inventory.quantity st - quantity in
        let items1 := <[item_name := Stack (item st) q]> (items self) in
        let items2 := if q =? 0 then delete item_name items1 else items1 in
        (true, Build items2 (equipment self) (gold self))
      else (false, self)
  | None => (false, self)
  end.

(** [equip_item(item)]. *)
Definition equip_item (self : t) (item : Item.t) : bool * t :=
  if Item.is_weapon item then
    (true, Build (items self)
                 (Slots (Some item) (armor (equipment self))) (gold self))
  else if Item.is_armor item then
    (true, Build (items self)
                 (Slots (weapon (equipment self)) (Some item)) (gold self))
  else (false, self).

(** [use_consumable(item)]. *)
Definition use_consumable (self : t) (item : Item.t) : bool * t :=
  if bool_decide (is_Some (items self !! Item.name item))
     && Item.is_consumable item
  then
    let '(removed, self1) := remove_item self (Item.name item) 1 in
    if removed then (true, self1) else (false, self1)
  else (false, self).

(** What a loop variable of [get_total_value] can be bound to, and what
    its arithmetic can produce. *)
Inductive value : Type :=
| VStr (s : string)
| VInt (z : Z)
| VItem (i : Item.t)
| VStack (d : stack).

(** [v.value]. *)
Definition getattr_value (v : value) : Py.result value :=
  match v with
  | VItem i => z <-? Item.value i; Py.Ok (VInt z)
  | VStr _ | VInt _ | VStack _ => Py.Err Py.AttributeError
  end.

(** [a * b], for the operand types that can meet here. *)
Definition mul (a b : value) : Py.result value :=
  match a, b with
  | VInt x, VInt y => Py.Ok (VInt (x * y))
  | _, _ => Py.Err Py.TypeError
  end.

(** [total + b] for the [int] accumulator [total]. *)
Definition add_int (total : Z) (b : value) : Py.result Z :=
  match b with
  | VInt y => Py.Ok (total + y)
  | _ => Py.Err Py.TypeError
  end.

(** One iteration of the loop of [get_total_value]:
    [total += item.value * quantity], where the loop header
    [for item, quantity in self.items.items()] binds [item] to a key of
    the dict (a string) and [quantity] to its value (a stack). *)
Definition get_total_value_step (total : Z) (kv : string * stack)
  : Py.result Z :=
  let item := VStr (fst kv) in
  let quantity := VStack (snd kv) in
  v <-? getattr_value item;
  p <-? mul v quantity;
  add_int total p.

Fixpoint get_total_value_loop (total : Z) (kvs : list (string * stack))
  {struct kvs} : Py.result Z :=
  match kvs with
  | [] => Py.Ok total
  | kv :: kvs' =>
      total' <-? get_total_value_step total kv;
      get_total_value_loop total' kvs'
  end.

(** [get_total_value()]. *)
Definition get_total_value (self : t) : Py.result Z :=
  get_total_value_loop (gold self) (map_to_list (items self)).

(** The total the documentation of [get_total_value] describes: the gold
    plus, for every stack, the value of its item times its quantity. *)
Definition documented_total_value (self : t) : Z :=
  gold self +
  map_fold (fun _ st acc =>
              match Item.value (item st) with
              | Py.Ok v => v * quantity st + acc
              | Py.Err _ => acc
              end) 0 (items self).

(** The invariant of the data model: every stack holds at least one
    unit. *)
Definition quantities_positive (self : t) : Prop :=
  ∀ k st, items self !! k = Some st → 0 < quantity st.

End Inventory.

(** ** The game: turn engine and loot *)

Module Game.

(** Calls made by the turn loop, recorded in call order.  This trace is
    instrumentation of the model: it makes "is invoked" observable. *)
Inductive call : Type :=
| CallPlayerAttack
| CallEnemyAttack
| CallUseItem
| CallSupportAbility
| CallDisplayInventory
| CallGainExperience (amount : Z)
| CallAddLoot.

(** The state a call of [Game.combat] works on: the attributes of the
    [Game] object it uses, its two arguments, and the environment
    (console input, random source, clock). *)
Record World : Type := Build {
  sidekicks : list Character.t;
  inventory : Inventory.t;
  logger : GameLogger.t;
  debug_mode : bool;
  player : Character.t;
  enemy : Character.t;
  (** the lines still to be read by [input()] *)
  stdin : list string;
  (** [random n] is the value of the [n]-th call of [random.random()] *)
  random : nat -> spec_float;
  draws : nat;
  (** [clock n] is the time stamp taken when the log holds [n] entries *)
  clock : nat -> string;
  trace : list call
}.

Definition with_inventory (w : World) (i : Inventory.t) : World :=
  Build (sidekicks w) i (logger w) (debug_mode w) (player w) (enemy w)
        (stdin w) (random w) (draws w) (clock w) (trace w).
Definition with_logger (w : World) (l : GameLogger.t) : World :=
  Build (sidekicks w) (inventory w) l (debug_mode w) (player w) (enemy w)
        (stdin w) (random w) (draws w) (clock w) (trace w).
Definition with_player (w : World) (p : Character.t) : World :=
  Build (sidekicks w) (inventory w) (logger w) (debug_mode w) p (enemy w)
        (stdin w) (random w) (draws w) (clock w) (trace w).
Definition with_enemy (w : World) (e : Character.t) : World :=
  Build (sidekicks w) (inventory w) (logger w) (debug_mode w) (player w) e
        (stdin w) (random w) (draws w) (clock w) (trace w).
Definition with_stdin (w : World) (s : list string) : World :=
  Build (sidekicks w) (inventory w) (logger w) (debug_mode w) (player w)
        (enemy w) s (random w) (draws w) (clock w) (trace w).
Definition with_draws (w : World) (n : nat) : World :=
  Build (sidekicks w) (inventory w) (logger w) (debug_mode w) (player w)
        (enemy w) (stdin w) (random w) n (clock w) (trace w).
Definition with_trace (w : World) (t : list call) : World :=
  Build (sidekicks w) (inventory w) (logger w) (debug_mode w) (player w)
        (enemy w) (stdin w) (random w) (draws w) (clock w) t.

(** *** The monad of [Game] methods *)

Inductive outcome (A : Type) : Type :=
| Ret (a : A) (w : World)
| Raise (e : Py.exn) (w : World).
Arguments Ret {A} a w.
Arguments Raise {A} e w.

Definition M (A : Type) : Type := World -> outcome A.

Definition ret {A} (a : A) : M A := fun w => Ret a w.
Definition raise {A} (e : Py.exn) : M A := fun w => Raise e w.
Definition bind {A B} (m : M A) (k : A -> M B) : M B :=
  fun w => match m w with
           | Ret a w' => k a w'
           | Raise e w' => Raise e w'
           end.
(** The same outcome, in a world changed by [f]. *)
Definition on_world {A} (f : World -> World) (o : outcome A) : outcome A :=
  match o with
  | Ret a w => Ret a (f w)
  | Raise e w => Raise e (f w)
  end.

(** The world a call ends in, whether it returns or raises. *)
Definition final_world {A} (o : outcome A) : World :=
  match o with
  | Ret _ w => w
  | Raise _ w => w
  end.

Definition get : M World := fun w => Ret w w.
Definition put (w : World) : M unit := fun _ => Ret tt w.
Definition lift {A} (r : Py.result A) : M A :=
  match r with
  | Py.Ok a => ret a
  | Py.Err e => raise e
  end.

Declare Scope game_scope.
Delimit Scope game_scope with game.
Notation "x <- m ;; k" := (bind m (fun x => k))
  (at level 100, m at next level, right associativity) : game_scope.
Notation "m ;; k" := (bind m (fun _ => k))
  (at level 100, right associativity) : game_scope.
Local Open Scope game_scope.

Definition emit (c : call) : M unit :=
  fun w => Ret tt (with_trace w (trace w ++ [c])%list).

(** *** The environment *)

(** [input(prompt)]: the next line of the console, [EOFError] at the end
    of the input. *)
Definition input : M string :=
  fun w => match stdin w with
           | line :: rest => Ret line (with_stdin w rest)
           | [] => Raise Py.EOFError w
           end.

(** [random.random()]. *)
Definition random_random : M spec_float :=
  fun w => Ret (random w (draws w)) (with_draws w (S (draws w))).

(** The time stamp [log_combat] takes when it is called now. *)
Definition now (w : World) : string :=
  clock w (List.length (GameLogger.log_history (logger w))).

(** Modelled from the spec: [rpg_game/utils/console.py] ([clear_screen],
    [press_enter], [print_border]) is not part of the sources at hand.
    Section 6 makes the presentation boundary a one-way sink
    ("display(lines...)", no return value); these calls and every
    [print] leave the world as it is. *)
Definition clear_screen : M unit := ret tt.
Definition press_enter : M unit := ret tt.
Definition print_border : M unit := ret tt.

(** [get_valid_input(prompt, options)]: reads lines until one of them,
    stripped, is an option. *)
Fixpoint get_valid_input_from (options lines : list string)
  : option (string * list string) :=
  match lines with
  | [] => None
  | line :: rest =>
      let user_input := Py.strip line in
      if Py.str_in user_input options then Some (user_input, rest)
      else get_valid_input_from options rest
  end.

Definition get_valid_input (options : list string) : M string :=
  fun w => match get_valid_input_from options (stdin w) with
           | Some (user_input, rest) => Ret user_input (with_stdin w rest)
           | None => Raise Py.EOFError (with_stdin w [])
           end.

(** *** Display methods (they only print) *)

Definition display_combat_status : M unit := clear_screen.
Definition print_victory_message : M unit := print_border;; press_enter.
Definition print_defeat_message : M unit := print_border;; press_enter.
Definition display_inventory : M unit := ret tt.

(** *** Method dispatch *)

(** [self.attack(target, self.logger)], resolved on the class of [self];
    returns the damage and the target after the call. *)
Definition call_attack (self target : Character.t) : M (Z * Character.t) :=
  match Character.class self with
  | Character.Character | Character.Boss =>
      w <- get;;
      let '(d, target', logger') :=
        Character.attack (now w) self target (logger w) in
      put (with_logger w logger');;
      ret (d, target')
  | Character.Sidekick _ =>
      w <- get;;
      r <- lift (Sidekick.attack (now w) self target (logger w));;
      let '(d, target', logger') := r in
      put (with_logger w logger');;
      ret (d, target')
  | Character.Villain _ =>
      draw <- random_random;;
      w <- get;;
      r <- lift (Villain.attack draw (now w) self target (logger w));;
      let '(d, target', logger') := r in
      put (with_logger w logger');;
      ret (d, target')
  end.

(** *** [use_item(character)], with [character] the player *)

(** The list [consumables] built by the first loop. *)
Definition consumables_of (inv : Inventory.t) : list Item.t :=
  List.map (fun kv => Inventory.item (snd kv))
    (List.filter (fun kv => Item.is_consumable (Inventory.item (snd kv)))
       (map_to_list (Inventory.items inv))).

(** [consumables[choice]]: [choice] is what [get_valid_input] returned, a
    string; a list subscript must be an integer. *)
Definition consumables_getitem (consumables : list Item.t)
    (choice : Inventory.value) : Py.result Item.t :=
  match choice with
  | Inventory.VInt z =>
      let n := Z.of_nat (List.length consumables) in
      let j := if z <? 0 then z + n else z in
      if (0 <=? j) && (j <? n)
      then match nth_error consumables (Z.to_nat j) with
           | Some a => Py.Ok a
           | None => Py.Err Py.IndexError
           end
      else Py.Err Py.IndexError
  | _ => Py.Err Py.TypeError
  end.

(** The options offered for the item to use:
    [[str(i + 1) for i in range(len(consumables))]]. *)
Definition item_options (consumables : list Item.t) : list string :=
  List.map (fun i => Py.str_of_nat (i + 1)) (seq 0 (List.length consumables)).

Definition use_item : M unit :=
  w <- get;;
  let consumables := consumables_of (inventory w) in
  match consumables with
  | [] => ret tt
  | _ :: _ =>
      choice <- get_valid_input (item_options consumables);;
      item <- lift (consumables_getitem consumables (Inventory.VStr choice));;
      w <- get;;
      let '(used, inv') := Inventory.use_consumable (inventory w) item in
      if used then
        heal_amount <- lift (Item.heal_amount item);;
        let character := player w in
        put (with_player (with_inventory w inv')
               (Character.set_health character
                  (Character.get_health character + heal_amount)))
      else put (with_inventory w inv')
  end.

(** *** [add_loot(enemy)] *)

Definition add_loot (enemy : Character.t) : M unit :=
  let gold := Character.damage enemy * 5 in
  w <- get;;
  let inv := inventory w in
  put (with_inventory w
         (Inventory.Build (Inventory.items inv) (Inventory.equipment inv)
            (Inventory.gold inv + gold)));;
  r1 <- random_random;;
  (if Py.float_lt r1 Py.float_0_5 then
     w <- get;;
     put (with_inventory w
            (Inventory.add_item (inventory w)
               (Item.Consumable "Health Potion" "Restores 20 health" 10 20)
               1))
   else ret tt);;
  r2 <- random_random;;
  (if Py.float_lt r2 Py.float_0_3 then
     let defense := Character.damage enemy / 2 in
     w <- get;;
     put (with_inventory w
            (Inventory.add_item (inventory w)
               (Item.Armor (String.append (Character.name enemy) "'s Armor")
                  (String.append "Armor dropped by " (Character.name enemy))
                  50 defense)
               1))
   else ret tt).

(** *** [combat(player, enemy)] *)

(** How the action chosen by the player leaves the loop body. *)
Inductive control : Type :=
| FallThrough          (** go on to the enemy's turn *)
| Continue             (** [continue]: back to the top of the loop *)
| Return (b : bool).   (** [return b] *)

(** The four branches on [choice]. *)
Definition player_action (choice inventory_option : string) : M control :=
  if String.eqb choice "1" then
    w <- get;;
    emit CallPlayerAttack;;
    r <- call_attack (player w) (enemy w);;
    let '(damage_dealt, enemy') := r in
    w <- get;;
    put (with_enemy w enemy');;
    if Character.get_health enemy' <=? 0 then
      print_victory_message;;
      let xp_gain := Character.damage enemy' * 10 in
      emit (CallGainExperience xp_gain);;
      w <- get;;
      r <- lift (Character.gain_experience (player w) xp_gain);;
      let '(_, player') := r in
      put (with_player w player');;
      emit CallAddLoot;;
      add_loot enemy';;
      ret (Return true)
    else ret FallThrough
  else if String.eqb choice "2" then
    emit CallUseItem;;
    use_item;;
    press_enter;;
    ret Continue
  else
    w <- get;;
    match (if String.eqb choice "3" then sidekicks w else []) with
    | sidekick :: _ =>
        emit CallSupportAbility;;
        r <- lift (Sidekick.use_support_ability (now w) sidekick (player w)
                    (logger w));;
        let '(player', logger') := r in
        w <- get;;
        put (with_logger (with_player w player') logger');;
        ret FallThrough
    | [] =>
        if String.eqb choice inventory_option then
          emit CallDisplayInventory;;
          display_inventory;;
          press_enter;;
          ret Continue
        else ret FallThrough
    end.

(** The enemy's turn, after an action that fell through. *)
Definition enemy_turn : M control :=
  w <- get;;
  if 0 <? Character.get_health (enemy w) then
    emit CallEnemyAttack;;
    r <- call_attack (enemy w) (player w);;
    let '(damage_received, player') := r in
    w <- get;;
    put (with_player w player');;
    if Character.get_health player' <=? 0 then
      print_defeat_message;;
      ret (Return false)
    else press_enter;; ret Continue
  else press_enter;; ret Continue.

(** The menu of one round: the options and the number of the
    "View Inventory" entry. *)
Definition menu (w : World) : list string * string :=
  let options := (["1"; "2"] ++
                  match sidekicks w with [] => [] | _ :: _ => ["3"] end)%list in
  let inventory_option := Py.str_of_nat (List.length options + 1) in
  ((options ++ [inventory_option])%list, inventory_option).

(** One pass through the body of the [while] loop. *)
Definition combat_round : M control :=
  display_combat_status;;
  w <- get;;
  let '(options, inventory_option) := menu w in
  choice <- get_valid_input options;;
  c <- player_action choice inventory_option;;
  match c with
  | FallThrough => enemy_turn
  | Continue => ret Continue
  | Return b => ret (Return b)
  end.

(** What a call of [combat] comes to. *)
Inductive verdict : Type :=
| Returned (b : bool)   (** [return True] (win) or [return False] (loss) *)
| LoopLeft              (** the loop condition failed: [None] is returned *)
| OutOfFuel.            (** the model's bound on the rounds was reached *)

(** The [while] loop, for at most [fuel] rounds. *)
Fixpoint combat (fuel : nat) : M verdict :=
  match fuel with
  | O => ret OutOfFuel
  | S fuel' =>
      w <- get;;
      if (0 <? Character.get_health (player w))
         && (0 <? Character.get_health (enemy w))
      then
        c <- combat_round;;
        match c with
        | Return b => ret (Returned b)
        | _ => combat fuel'
        end
      else ret LoopLeft
  end.

(** [combat(player, enemy)] on the console input of the world: a round
    reads at least one line, so one unit of fuel per line, and one more,
    is enough. *)
Definition run_combat : M verdict :=
  fun w => combat (S (List.length (stdin w))) w.

End Game.

(** ** Concrete game states *)

Module Scenario.

(** The player of the specification's scenarios: health 110, damage 10,
    a Rock with bonus 2. *)
Definition hero : Character.t :=
  Character.init "Hero" 110 10 (Some "Rock") 2 1 0 false.

(** The three enemies [setup_game] creates. *)
Definition goblin_king : Character.t := Boss.init "Goblin King" 50 8 None 0.
Definition dark_sorcerer : Character.t :=
  Boss.init "Dark Sorcerer" 60 9 None 0.


Definition health_potion : Item.t :=
  Item.Consumable "Health Potion" "Restores 20 health" 10 20.

(** The first encounter of the game, against the Goblin King, with the
    console input [lines]; every random draw is 0.0, so that a victory
    drops a potion and an armor. *)
Definition opening (lines : list string) : Game.World :=
  Game.Build [] Inventory.init (GameLogger.init true) false
    hero goblin_king
    lines (fun _ => S754_zero false) 0 (fun _ => "12:00:00") [].

(** The world of the next encounter: the enemy and the console input are
    replaced, everything else is kept. *)
Definition next_encounter (w : Game.World) (enemy : Character.t)
    (lines : list string) : Game.World :=
  Game.with_stdin (Game.with_enemy w enemy) lines.

End Scenario.

(** ** Vocabulary of the specification *)

Module Spec.

(** [floor(x * c)] for an integer [x] and a rational factor [c], the way
    the specification writes the scalings ("health = floor(oldHealth x
    1.2)"). *)
Definition floor_mul (x : Z) (c : Q) : Z := Qfloor (inject_Z x * c).

(** The data-model invariant [experienceToNextLevel = 100 x level]. *)
Definition level_invariant (c : Character.t) : Prop :=
  Character.experience_to_next_level c = 100 * Character.level c.

(** The heal amount of a sidekick: 15 for "Healing Spirit", half the base
    damage (integer division) otherwise. *)
Definition heal_amount (s : Character.t) : Z :=
  if String.eqb (Character.name s) "Healing Spirit" then 15
  else Character.damage s / 2.





End Spec.

(** ** More of Python's [str], for the set-up methods *)

Module PyText.

Definition is_digit_ascii (c : ascii) : bool :=
  let n := nat_of_ascii c in (Nat.leb 48 n && Nat.leb n 57)%bool.

Fixpoint all_digits (s : string) : bool :=
  match s with
  | EmptyString => true
  | String c s' => is_digit_ascii c && all_digits s'
  end.

(** [s.isdigit()]: at least one character, and digits only. *)
Definition isdigit (s : string) : bool :=
  match s with
  | EmptyString => false
  | String _ _ => all_digits s
  end.

Fixpoint int_of_digits_from (acc : Z) (s : string) : Z :=
  match s with
  | EmptyString => acc
  | String c s' =>
      int_of_digits_from (10 * acc + Z.of_nat (nat_of_ascii c - 48)) s'
  end.

(** The value of a string [s] of digits. *)
Definition int_of_digits (s : string) : Z := int_of_digits_from 0 s.

(** [int(s)] for a string [s] of digits: CPython (3.11 and later, with
    the default setting) refuses to convert more than 4300 digits. *)
Definition max_str_digits : nat := 4300.

Definition int_of_str (s : string) : Py.result Z :=
  if Nat.leb (String.length s) max_str_digits then Py.Ok (int_of_digits s)
  else Py.Err Py.ValueError.

(** The console lines this model is about: ASCII text, on which
    [isdigit], [lower], [upper] and [strip] are what is written here, and
    short enough for [int]. *)
Fixpoint is_ascii (s : string) : bool :=
  match s with
  | EmptyString => true
  | String c s' => Nat.ltb (nat_of_ascii c) 128 && is_ascii s'
  end.

Definition plain (s : string) : bool :=
  is_ascii s && Nat.leb (String.length s) max_str_digits.

(** [needle in hay] for two strings. *)
Fixpoint contains (needle hay : string) : bool :=
  String.prefix needle hay ||
  match hay with
  | EmptyString => false
  | String _ hay' => contains needle hay'
  end.

Definition upper_ascii (c : ascii) : ascii :=
  let n := nat_of_ascii c in
  if (Nat.leb 97 n && Nat.leb n 122)%bool then ascii_of_nat (n - 32) else c.

(** [s.upper()]. *)
Fixpoint upper (s : string) : string :=
  match s with
  | EmptyString => EmptyString
  | String c s' => String (upper_ascii c) (upper s')
  end.

(** [s.capitalize()]: the first character in upper case, the others in
    lower case. *)
Definition capitalize (s : string) : string :=
  match s with
  | EmptyString => EmptyString
  | String c s' => String (upper_ascii c) (Py.lower s')
  end.

End PyText.

(** ** The read-only accessors of [Character] *)

Module CharacterQueries.

(** [get_level()]. *)
Definition get_level (self : Character.t) : Z := Character.level self.

(** [get_experience()]. *)
Definition get_experience (self : Character.t) : Z :=
  Character.experience self.

(** [get_experience_to_next_level()]: the points still missing. *)
Definition get_experience_to_next_level (self : Character.t) : Z :=
  Character.experience_to_next_level self - Character.experience self.

End CharacterQueries.

(** ** The constants of [constants.py] that the game logic reads *)

Module Constants.

Definition PLAYER_INITIAL_HEALTH : Z := 110.
Definition PLAYER_INITIAL_DAMAGE : Z := 10.

Definition GOBLIN_KING_NAME : string := "Goblin King".
Definition GOBLIN_KING_HEALTH : Z := 50.
Definition GOBLIN_KING_DAMAGE : Z := 8.

Definition DARK_SORCERER_NAME : string := "Dark Sorcerer".
Definition DARK_SORCERER_HEALTH : Z := 60.
Definition DARK_SORCERER_DAMAGE : Z := 9.

Definition SHADOW_KNIGHT_NAME : string := "Shadow Knight".
Definition SHADOW_KNIGHT_HEALTH : Z := 70.
Definition SHADOW_KNIGHT_DAMAGE : Z := 12.

Definition WEAPON_ROCK_NAME : string := "Rock".
Definition WEAPON_PAPER_NAME : string := "Paper".
Definition WEAPON_SCISSORS_NAME : string := "Scissors".

(** A value of one of the three sidekick dicts. *)
Inductive value : Type :=
| Str (s : string)
| Int (z : Z).

Definition HEALING_SPIRIT : gmap string value :=
  list_to_map
    [("name", Str "Healing Spirit"); ("health", Int 50); ("damage", Int 3);
     ("weapon_name", Str "Healing Staff"); ("weapon_damage", Int 2);
     ("ability", Str "Heal");
     ("ability_description", Str "Restores 15 health to the player")].

Definition BATTLE_HOUND : gmap string value :=
  list_to_map
    [("name", Str "Battle Hound"); ("health", Int 40); ("damage", Int 8);
     ("weapon_name", Str "Sharp Fangs"); ("weapon_damage", Int 4);
     ("ability", Str "Bite");
     ("ability_description", Str "Deals 10 damage to the enemy")].

Definition SHIELD_GUARDIAN : gmap string value :=
  list_to_map
    [("name", Str "Shield Guardian"); ("health", Int 70); ("damage", Int 4);
     ("weapon_name", Str "Tower Shield"); ("weapon_damage", Int 1);
     ("ability", Str "Protect");
     ("ability_description", Str "Reduces next incoming damage by 50%")].

End Constants.

(** ** The set-up and sequencing methods of [Game] *)

Module Run.

(** The exceptions of this part of [Game]: those of the turn engine, and
    the [KeyError] of a dict subscript. *)
Inductive exn : Type :=
| Core (e : Py.exn)
| KeyError.

Inductive result (A : Type) : Type :=
| Ok (a : A)
| Err (e : exn).
Arguments Ok {A} a.
Arguments Err {A} e.

Definition rbind {A B} (r : result A) (k : A -> result B) : result B :=
  match r with
  | Ok a => k a
  | Err e => Err e
  end.

(** [d[k]] for a dict [d]. *)
Definition getitem (d : gmap string Constants.value) (k : string)
  : result Constants.value :=
  match d !! k with
  | Some v => Ok v
  | None => Err KeyError
  end.

(** *** [choose_weapon()] *)

(** The local list [weapons]; the three bonuses are the values of the
    three calls [random.randint(1, 5)], in this order. *)
Definition weapons (rolls : Z * Z * Z) : list (string * Z) :=
  let '(r1, r2, r3) := rolls in
  [(Constants.WEAPON_ROCK_NAME, r1); (Constants.WEAPON_PAPER_NAME, r2);
   (Constants.WEAPON_SCISSORS_NAME, r3)].

(** The [while True] loop over the lines of the console: the chosen weapon
    and the lines left.  A line selects by number when it is a digit
    string between 1 and the number of weapons, otherwise by name when it
    occurs in exactly one lower-cased name. *)
Fixpoint choose_weapon_from (weapons : list (string * Z))
    (lines : list string) : Py.result (string * Z * list string) :=
  match lines with
  | [] => Py.Err Py.EOFError
  | line :: rest =>
      let choice := Py.lower (Py.strip line) in
      by_number <-?
        (if PyText.isdigit choice then
           n <-? PyText.int_of_str choice;
           Py.Ok ((1 <=? n) && (n <=? Z.of_nat (List.length weapons)))
         else Py.Ok false);
      if by_number : bool then
        n <-? PyText.int_of_str choice;
        match nth_error weapons (Z.to_nat (n - 1)) with
        | Some weapon_data => Py.Ok (weapon_data, rest)
        | None => Py.Err Py.IndexError
        end
      else
        match List.filter
                (fun w => PyText.contains choice (Py.lower (fst w)))
                weapons with
        | [weapon_data] => Py.Ok (weapon_data, rest)
        | _ => choose_weapon_from weapons rest
        end
  end.

Definition choose_weapon (rolls : Z * Z * Z) (lines : list string)
  : Py.result (string * Z * list string) :=
  choose_weapon_from (weapons rolls) lines.

(** *** [show_intro()] and [setup_game(name)] *)

(** The name typed at the first prompt: the debug flag it sets and the
    name of the player. *)
Definition intro_name (line : string) : bool * string :=
  let player_name := Py.strip line in
  if String.eqb (PyText.upper player_name) "DEBUG"
  then (true, "DebugPlayer")
  else (false, PyText.capitalize player_name).

(** The list [self.bosses] built by [setup_game]. *)
Definition bosses : list Character.t :=
  [Boss.init Constants.GOBLIN_KING_NAME Constants.GOBLIN_KING_HEALTH
     Constants.GOBLIN_KING_DAMAGE None 0;
   Boss.init Constants.DARK_SORCERER_NAME Constants.DARK_SORCERER_HEALTH
     Constants.DARK_SORCERER_DAMAGE None 0;
   Villain.init Constants.SHADOW_KNIGHT_NAME Constants.SHADOW_KNIGHT_HEALTH
     Constants.SHADOW_KNIGHT_DAMAGE (Some "Dark Sword") 5 "Dark Magic"].

(** [setup_game(name)]: the player it creates and the console lines left
    after the choice of the weapon. *)
Definition setup_game (debug_mode : bool) (name : string)
    (rolls : Z * Z * Z) (lines : list string)
  : Py.result (Character.t * list string) :=
  match choose_weapon rolls lines with
  | Py.Ok (weapon_name, weapon_damage, rest) =>
      Py.Ok (Character.init name Constants.PLAYER_INITIAL_HEALTH
               Constants.PLAYER_INITIAL_DAMAGE (Some weapon_name)
               weapon_damage 1 0 debug_mode,
             rest)
  | Py.Err e => Py.Err e
  end.

(** *** The monad of the sequencing methods *)

Inductive outcome (A : Type) : Type :=
| Ret (a : A) (w : Game.World)
| Raise (e : exn) (w : Game.World).
Arguments Ret {A} a w.
Arguments Raise {A} e w.

Definition M (A : Type) : Type := Game.World -> outcome A.

Definition ret {A} (a : A) : M A := fun w => Ret a w.
Definition bind {A B} (m : M A) (k : A -> M B) : M B :=
  fun w => match m w with
           | Ret a w' => k a w'
           | Raise e w' => Raise e w'
           end.

(** A method of the turn engine, called from here. *)
Definition lift_game {A} (m : Game.M A) : M A :=
  fun w => match m w with
           | Game.Ret a w' => Ret a w'
           | Game.Raise e w' => Raise (Core e) w'
           end.

Definition with_sidekicks (w : Game.World) (s : list Character.t)
  : Game.World :=
  Game.Build s (Game.inventory w) (Game.logger w) (Game.debug_mode w)
    (Game.player w) (Game.enemy w) (Game.stdin w) (Game.random w)
    (Game.draws w) (Game.clock w) (Game.trace w).

(** *** [choose_sidekick()] *)

(** One element of the local list [sidekicks]: a dict with the keys
    ["name"], ["health"], ["damage"], ["ability"] and ["description"]. *)
Record offer : Type := Offer {
  offer_name : Constants.value;
  offer_health : Constants.value;
  offer_damage : Constants.value;
  offer_ability : Constants.value;
  offer_description : Constants.value
}.

(** The dict display that copies five entries of a sidekick constant; the
    subscripts are evaluated in the order of the source. *)
Definition offer_of (d : gmap string Constants.value) : result offer :=
  rbind (getitem d "name") (fun n =>
  rbind (getitem d "health") (fun h =>
  rbind (getitem d "damage") (fun dm =>
  rbind (getitem d "ability") (fun a =>
  rbind (getitem d "description") (fun ds =>
  Ok (Offer n h dm a ds)))))).

(** The list display [sidekicks = [...]]. *)
Definition offers : result (list offer) :=
  rbind (offer_of Constants.HEALING_SPIRIT) (fun o1 =>
  rbind (offer_of Constants.BATTLE_HOUND) (fun o2 =>
  rbind (offer_of Constants.SHIELD_GUARDIAN) (fun o3 =>
  Ok [o1; o2; o3]))).

(** The constructor [Sidekick(name=.., health=.., damage=..,
    support_ability=..)] needs a text, two numbers and a text; the
    constants have these types, and a value of the other type is outside
    the model. *)
Definition as_str (v : Constants.value) : result string :=
  match v with
  | Constants.Str s => Ok s
  | Constants.Int _ => Err (Core Py.TypeError)
  end.

Definition as_int (v : Constants.value) : result Z :=
  match v with
  | Constants.Int z => Ok z
  | Constants.Str _ => Err (Core Py.TypeError)
  end.

Definition sidekick_of (selected : offer) : result Character.t :=
  rbind (as_str (offer_name selected)) (fun n =>
  rbind (as_int (offer_health selected)) (fun h =>
  rbind (as_int (offer_damage selected)) (fun dm =>
  rbind (as_str (offer_ability selected)) (fun a =>
  Ok (Sidekick.init n h dm None 0 a))))).

(** The [while True] loop of [choose_sidekick] over the lines of the
    console. *)
Fixpoint choose_sidekick_from (sidekicks : list offer)
    (lines : list string) : result (Character.t * list string) :=
  match lines with
  | [] => Err (Core Py.EOFError)
  | line :: rest =>
      let choice := Py.strip line in
      if Py.str_in choice ["1"; "2"; "3"] then
        match nth_error sidekicks
                (Z.to_nat (PyText.int_of_digits choice - 1)) with
        | Some selected =>
            rbind (sidekick_of selected) (fun s => Ok (s, rest))
        | None => Err (Core Py.IndexError)
        end
      else choose_sidekick_from sidekicks rest
  end.

Definition choose_sidekick : M unit :=
  fun w =>
    match offers with
    | Err e => Raise e w
    | Ok sidekicks =>
        match choose_sidekick_from sidekicks (Game.stdin w) with
        | Ok (s, rest) =>
            Ret tt (Game.with_stdin (with_sidekicks w [s]) rest)
        | Err e => Raise e (Game.with_stdin w [])
        end
    end.

(** *** [handle_boss_battles()] *)

(** How the sequence of encounters ends: the argument of the call of
    [end_game] it makes, or the bound of the model on the rounds of a
    [combat]. *)
Inductive ending : Type :=
| Victory      (** [end_game(True)] *)
| Defeat       (** [end_game(False)] *)
| Unfinished.  (** an encounter ran out of fuel *)

(** The loop [for i, boss in enumerate(self.bosses)], from index [i]. *)
Fixpoint battles (i : nat) (bosses : list Character.t) : M ending :=
  match bosses with
  | [] => ret Victory
  | boss :: rest =>
      bind (if Nat.eqb i 1 then choose_sidekick else ret tt) (fun _ =>
      bind (lift_game
              (fun w => Game.run_combat (Game.with_enemy w boss)))
           (fun v =>
              match v with
              | Game.Returned true => battles (S i) rest
              | Game.Returned false => ret Defeat
              | Game.LoopLeft => ret Defeat
              | Game.OutOfFuel => ret Unfinished
              end))
  end.

Definition handle_boss_battles (bosses : list Character.t) : M ending :=
  battles 0 bosses.

(** *** [run()] *)

(** What a call of [run] comes to: an exception before the player exists,
    or the outcome of the encounters. *)
Inductive run_result : Type :=
| NoGame (e : exn)
| Played (o : outcome ending).

(** [run()], on the console input [lines], with the values [rolls] of the
    three calls of [random.randint], the values [random] of the calls of
    [random.random()] and the readings [clock] of the clock. *)
Definition run (rolls : Z * Z * Z) (random : nat -> spec_float)
    (clock : nat -> string) (lines : list string) : run_result :=
  match lines with
  | [] => NoGame (Core Py.EOFError)
  | line :: rest =>
      let '(debug_mode, player_name) := intro_name line in
      match setup_game debug_mode player_name rolls rest with
      | Py.Err e => NoGame (Core e)
      | Py.Ok (player, rest') =>
          Played
            (handle_boss_battles bosses
               (Game.Build [] Inventory.init (GameLogger.init true)
                  debug_mode player (hd player bosses) rest' random 0
                  clock []))
      end
  end.

End Run.


(** ** Invariants of the inventory *)

Module Wellformed.

(** Every stack is filed under the name of its item, the key [add_item]
    files it under. *)
Definition keyed_by_name (inv : Inventory.t) : Prop :=
  forall k st,
    Inventory.items inv !! k = Some st ->
    Item.name (Inventory.item st) = k.

Definition inventory (inv : Inventory.t) : Prop :=
  keyed_by_name inv /\ Inventory.quantities_positive inv.

End Wellformed.

(** ** What the turn engine never undoes *)

Module Frame.

(** [w'] extends [w]: the log and the trace have only grown, console
    lines have only been read, random numbers have only been drawn, and
    the sidekicks, the random source, the clock and the debug flag are
    the same. *)
Definition extends (w w' : Game.World) : Prop :=
  GameLogger.log_history (Game.logger w)
    `prefix_of` GameLogger.log_history (Game.logger w')
  /\ GameLogger.log_to_console (Game.logger w')
     = GameLogger.log_to_console (Game.logger w)
  /\ Game.trace w `prefix_of` Game.trace w'
  /\ Game.stdin w' `suffix_of` Game.stdin w
  /\ (Game.draws w <= Game.draws w')%nat
  /\ Game.sidekicks w' = Game.sidekicks w
  /\ Game.random w' = Game.random w
  /\ Game.clock w' = Game.clock w
  /\ Game.debug_mode w' = Game.debug_mode w.

(** [inv'] holds every stack of [inv], with the same item and at least
    the same quantity. *)
Definition holds_at_least (inv inv' : Inventory.t) : Prop :=
  forall k st,
    Inventory.items inv !! k = Some st ->
    exists st',
      Inventory.items inv' !! k = Some st'
      /\ Inventory.item st' = Inventory.item st
      /\ Inventory.quantity st <= Inventory.quantity st'.

(** [c'] is [c] but for its health. *)
Definition same_but_health (c c' : Character.t) : Prop :=
  c' = Character.with_health c (Character.get_health c').

End Frame.

(** ** The first encounter of a game *)

Module FirstBattle.

(** What holds at the top of every round of the encounter [run] starts
    with: a plain player without sidekick and without consumables, who
    hits for at least 11 and whose experience stays below the threshold
    with the 80 points of the victory; a boss who hits for 8; and a
    player who has lost at most 8 points of health for every 11 the boss
    has lost. *)
Definition invariant (w : Game.World) : Prop :=
  Character.class (Game.player w) = Character.Character
  /\ Character.class (Game.enemy w) = Character.Boss
  /\ Game.sidekicks w = []
  /\ Game.consumables_of (Game.inventory w) = []
  /\ 11 <= Character.calculate_damage (Game.player w)
             (Character.damage (Game.player w))
  /\ Character.calculate_damage (Game.enemy w)
       (Character.damage (Game.enemy w)) = 8
  /\ Character.damage (Game.enemy w) = 8
  /\ Character.experience (Game.player w) + 80
     < Character.experience_to_next_level (Game.player w)
  /\ 11 * (110 - Character.get_health (Game.player w))
     <= 8 * (50 - Character.get_health (Game.enemy w)).

End FirstBattle.

(** * Properties *)

(** ** Binary64 arithmetic of the two scalings the game uses

    [int(h * 1.2)] and [int(h * 0.25)] go through a conversion to
    binary64, a rounded product and a truncation.  The lemmas below follow
    [SpecFloat]'s definitions step by step and end in closed forms over
    [Z]. *)

Section Binary64Facts.

Import Binary64.

























(** The float constants of [Py] are the binary64 values the decimal
    literals of the source denote. *)
#[warnings="-inexact-float"]
Lemma float_literals :
  Prim2SF 1.2 = Py.float_1_2 /\ Prim2SF 0.25 = Py.float_0_25
  /\ Prim2SF 0.75 = Py.float_0_75 /\ Prim2SF 0.2 = Py.float_0_2
  /\ Prim2SF 0.5 = Py.float_0_5 /\ Prim2SF 0.3 = Py.float_0_3.
Proof. repeat split; vm_compute; reflexivity. Qed.

(** Outside the ranges of the two lemmas the float arithmetic shows: a
    negative operand is truncated toward zero, an operand beyond [2 ^ 53]
    is rounded before it is scaled, and one beyond the float range makes
    the conversion raise. *)
Example scaling_outside_the_range :
  Py.int_of_mul (-3) Py.float_1_2 = Py.Ok (-3)
  /\ Spec.floor_mul (-3) (12 # 10) = -4
  /\ Py.int_of_mul (2 ^ 53 + 1) Py.float_1_2 = Py.Ok 10808639105689190
  /\ Spec.floor_mul (2 ^ 53 + 1) (12 # 10) = 10808639105689191
  /\ Py.int_of_mul (2 ^ 1024) Py.float_1_2 = Py.Err Py.OverflowError.
Proof. repeat split; vm_compute; reflexivity. Qed.




End Binary64Facts.

(** Closes a goal about concrete data by evaluation. *)
Ltac concrete :=
  vm_compute; repeat split; solve [reflexivity | discriminate | lia].

(** ** Characters: damage, experience and levels *)

Section CharacterFacts.



(** C9. For every character and every integer [d], of any sign and
    magnitude, [take_damage(d)] leaves every attribute but the health as it
    was and sets the health to [max(0, health - d)]; the health after the
    call is never negative. *)
Theorem take_damage_clamps_at_zero (c : Character.t) (d : Z) :
  Character.take_damage c d
    = Character.with_health c (Z.max 0 (Character.get_health c - d))
  /\ Character.get_health (Character.take_damage c d)
     = Z.max 0 (Character.get_health c - d)
  /\ 0 <= Character.get_health (Character.take_damage c d).
Proof.
  unfold Character.take_damage, Character.set_health, Character.get_health.
  cbn [Character.with_health Character._health]. repeat split; lia.
Qed.

(** The constructor establishes the level invariant. *)
Lemma init_level_invariant name health damage wn wd level experience dbg :
  Spec.level_invariant
    (Character.init name health damage wn wd level experience dbg).
Proof. reflexivity. Qed.





(** [gain_experience] keeps the level invariant. *)
Lemma gain_experience_level_invariant (c c' : Character.t) a b :
  Spec.level_invariant c ->
  Character.gain_experience c a = Py.Ok (b, c') ->
  Spec.level_invariant c'.
Proof.
  unfold Spec.level_invariant, Character.gain_experience, Character.level_up.
  intros Hinv. cbn [Character.experience_to_next_level Character.experience].
  destruct (_ <=? _).
  - cbn [Character._health Character.damage Character.level].
    destruct (Py.int_of_mul _ _); [|discriminate].
    destruct (Py.int_of_mul _ _); [|discriminate].
    cbn [Py.rbind]. intros [= _ <-]. reflexivity.
  - intros [= _ <-]. exact Hinv.
Qed.

End CharacterFacts.

(** ** Villains and sidekicks *)

Section AbilityFacts.




(** A villain with any other special ability does nothing when the
    ability is used, and zero is returned. *)
Lemma use_special_ability_unknown now self target logger ability :
  Character.class self = Character.Villain ability ->
  Py.lower ability <> "dark magic" ->
  Villain.use_special_ability now self target logger
  = Py.Ok (0, target, logger).
Proof.
  intros Hcls Hne. unfold Villain.use_special_ability,
    Character.special_ability. rewrite Hcls. cbn [Py.rbind].
  destruct (String.eqb_spec (Py.lower ability) "dark magic"); [contradiction|].
  reflexivity.
Qed.




End AbilityFacts.

(** ** The inventory *)

Section InventoryFacts.

(** A successful removal, in full. *)
Lemma remove_item_success (inv : Inventory.t) (name : string) (qty : Z)
    (st : Inventory.stack) :
  Inventory.items inv !! name = Some st ->
  qty <= Inventory.quantity st ->
  Inventory.remove_item inv name qty
  = (true,
     Inventory.Build
       (if Inventory.quantity st - qty =? 0
        then delete name (Inventory.items inv)
        else <[name := Inventory.Stack (Inventory.item st)
                         (Inventory.quantity st - qty)]>
               (Inventory.items inv))
       (Inventory.equipment inv) (Inventory.gold inv)).
Proof.
  intros Hst Hle. unfold Inventory.remove_item. rewrite Hst.
  replace (qty <=? Inventory.quantity st) with true
    by (symmetry; apply Z.leb_le; lia).
  destruct (_ =? 0); [rewrite delete_insert_eq|]; reflexivity.
Qed.

(** C8. [remove_item(name, qty)] returns [False] and leaves the inventory
    as it is when there is no stack called [name] or the stack holds fewer
    than [qty] units; otherwise it returns [True], the stack holds [qty]
    units fewer, and the entry is deleted exactly when that leaves zero;
    nothing else changes.  An inventory whose quantities are all positive
    stays so. *)
Theorem remove_item_spec (inv : Inventory.t) (name : string) (qty : Z) :
  (Inventory.items inv !! name = None ->
   Inventory.remove_item inv name qty = (false, inv))
  /\ (forall st, Inventory.items inv !! name = Some st ->
        Inventory.quantity st < qty ->
        Inventory.remove_item inv name qty = (false, inv))
  /\ (forall st, Inventory.items inv !! name = Some st ->
        qty <= Inventory.quantity st ->
        Inventory.remove_item inv name qty
        = (true,
           Inventory.Build
             (if Inventory.quantity st - qty =? 0
              then delete name (Inventory.items inv)
              else <[name := Inventory.Stack (Inventory.item st)
                               (Inventory.quantity st - qty)]>
                     (Inventory.items inv))
             (Inventory.equipment inv) (Inventory.gold inv)))
  /\ (Inventory.quantities_positive inv ->
      Inventory.quantities_positive
        (snd (Inventory.remove_item inv name qty))).
Proof.
  repeat split.
  - intros Hno. unfold Inventory.remove_item. rewrite Hno. reflexivity.
  - intros st Hst Hlt. unfold Inventory.remove_item. rewrite Hst.
    replace (qty <=? Inventory.quantity st) with false
      by (symmetry; apply Z.leb_gt; lia).
    reflexivity.
  - intros st. apply remove_item_success.
  - intros Hpos k st'.
    destruct (Inventory.items inv !! name) as [st|] eqn:Hst.
    + destruct (Z_le_gt_dec qty (Inventory.quantity st)) as [Hle|Hgt].
      * rewrite (remove_item_success inv name qty st Hst Hle).
        cbn [snd Inventory.items].
        destruct (Z.eqb_spec (Inventory.quantity st - qty) 0) as [Hz|Hnz].
        -- intros Hk. apply lookup_delete_Some in Hk as [_ Hk].
           exact (Hpos _ _ Hk).
        -- intros Hk. apply lookup_insert_Some in Hk as [[_ <-]|[_ Hk]].
           ++ cbn [Inventory.quantity]. specialize (Hpos _ _ Hst). lia.
           ++ exact (Hpos _ _ Hk).
      * unfold Inventory.remove_item. rewrite Hst.
        replace (qty <=? Inventory.quantity st) with false
          by (symmetry; apply Z.leb_gt; lia).
        apply Hpos.
    + unfold Inventory.remove_item. rewrite Hst. apply Hpos.
Qed.

(** C8 at the specification's scenario: removing two potions from an
    inventory that holds one fails, and the stack still holds one. *)
Lemma remove_item_spec_witness :
  let potion := Item.Consumable "Potion" "Restores 20 health" 10 20 in
  let inv := Inventory.add_item Inventory.init potion 1 in
  Inventory.remove_item inv "Potion" 2 = (false, inv)
  /\ Inventory.items inv !! "Potion" = Some (Inventory.Stack potion 1).
Proof.
  intros potion inv. split.
  - refine (proj1 (proj2 (remove_item_spec inv "Potion" 2))
              (Inventory.Stack potion 1) _ _).
    + reflexivity.
    + concrete.
  - reflexivity.
Defined.

(** After a successful removal the stack is gone exactly when it was
    emptied. *)
Lemma remove_item_lookup (inv : Inventory.t) (name : string) (qty : Z) st :
  Inventory.items inv !! name = Some st ->
  qty <= Inventory.quantity st ->
  Inventory.items (snd (Inventory.remove_item inv name qty)) !! name
  = if Inventory.quantity st - qty =? 0 then None
    else Some (Inventory.Stack (Inventory.item st)
                 (Inventory.quantity st - qty)).
Proof.
  intros Hst Hle.
  rewrite (remove_item_success inv name qty st Hst Hle).
  cbn [snd Inventory.items].
  destruct (_ =? 0); [apply lookup_delete_eq | apply lookup_insert_eq].
Qed.

(** Adding one unit and removing it again leaves no stack; adding two and
    removing one leaves one. *)
Lemma add_then_remove (inv : Inventory.t) (it : Item.t) :
  Inventory.items inv !! Item.name it = None ->
  Inventory.items
    (snd (Inventory.remove_item (Inventory.add_item inv it 1)
            (Item.name it) 1)) !! Item.name it = None
  /\ Inventory.items
       (snd (Inventory.remove_item (Inventory.add_item inv it 2)
               (Item.name it) 1)) !! Item.name it
     = Some (Inventory.Stack it 1).
Proof.
  intros Hno. split.
  - rewrite (remove_item_lookup _ _ _ (Inventory.Stack it 1)).
    + reflexivity.
    + unfold Inventory.add_item. rewrite Hno. apply lookup_insert_eq.
    + cbn. lia.
  - rewrite (remove_item_lookup _ _ _ (Inventory.Stack it 2)).
    + reflexivity.
    + unfold Inventory.add_item. rewrite Hno. apply lookup_insert_eq.
    + cbn. lia.
Qed.

(** [get_total_value] returns the gold of an inventory without stacks. *)
Lemma get_total_value_empty (inv : Inventory.t) :
  Inventory.items inv = ∅ ->
  Inventory.get_total_value inv = Py.Ok (Inventory.gold inv)
  /\ Inventory.documented_total_value inv = Inventory.gold inv.
Proof.
  intros He. unfold Inventory.get_total_value,
    Inventory.documented_total_value. rewrite He.
  rewrite map_to_list_empty, map_fold_empty. cbn. split; [reflexivity|lia].
Qed.

(** C1, what the code does.  Whenever the inventory holds at least one
    stack, [get_total_value] does not return: the loop binds [item] to a
    key of the dict, a string, and [item.value] raises [AttributeError]. *)
Theorem get_total_value_raises (inv : Inventory.t) :
  Inventory.items inv <> ∅ ->
  Inventory.get_total_value inv = Py.Err Py.AttributeError.
Proof.
  intros Hne. unfold Inventory.get_total_value.
  destruct (map_to_list (Inventory.items inv)) as [|kv kvs] eqn:El.
  - apply map_to_list_empty_iff in El. contradiction.
  - reflexivity.
Qed.

(** C1 at an inventory of one potion worth 10: the documented total is 10,
    the call raises. *)
Lemma get_total_value_raises_witness :
  let inv := Inventory.add_item Inventory.init Scenario.health_potion 1 in
  Inventory.get_total_value inv = Py.Err Py.AttributeError
  /\ Inventory.documented_total_value inv = 10.
Proof.
  intros inv. split.
  - refine (get_total_value_raises inv _).
    intros He. apply (f_equal (fun m => m !! "Health Potion")) in He.
    vm_compute in He. discriminate He.
  - reflexivity.
Defined.

(** Attacks do not read the inventory: replacing it commutes with any
    attack. *)
Lemma call_attack_inventory (w : Game.World) (inv : Inventory.t)
    (self target : Character.t) :
  Game.call_attack self target (Game.with_inventory w inv)
  = Game.on_world (fun w1 => Game.with_inventory w1 inv)
      (Game.call_attack self target w).
Proof.
  unfold Game.call_attack.
  destruct (Character.class self) as [| |a|a].
  - reflexivity.
  - reflexivity.
  - unfold Game.bind, Game.get, Game.lift. cbn.
    destruct (Sidekick.attack _ _ _ _) as [[[d t'] l']|e]; reflexivity.
  - unfold Game.bind, Game.get, Game.lift, Game.random_random. cbn.
    destruct (Villain.attack _ _ _ _ _) as [[[d t'] l']|e]; reflexivity.
Qed.

(** C10. [equip_item(item)] changes one equipment slot of the inventory
    (the weapon slot for a weapon, the armor slot for an armor, none for
    anything else) and nothing else: stacks and gold are as before, the
    player, the enemy, the sidekicks and the log are the same objects with
    the same attributes, and every attack, which computes its damage from
    the attacker's own [weapon] attribute, has the same result after the
    call as before it. *)
Theorem equip_item_frame (w : Game.World) (it : Item.t) :
  let r := Inventory.equip_item (Game.inventory w) it in
  let w' := Game.with_inventory w (snd r) in
  Inventory.items (snd r) = Inventory.items (Game.inventory w)
  /\ Inventory.gold (snd r) = Inventory.gold (Game.inventory w)
  /\ match it with
     | Item.Weapon _ =>
         fst r = true
         /\ Inventory.equipment (snd r)
            = Inventory.Slots (Some it)
                (Inventory.armor (Inventory.equipment (Game.inventory w)))
     | Item.Armor _ _ _ _ =>
         fst r = true
         /\ Inventory.equipment (snd r)
            = Inventory.Slots
                (Inventory.weapon (Inventory.equipment (Game.inventory w)))
                (Some it)
     | _ => r = (false, Game.inventory w)
     end
  /\ Game.player w' = Game.player w
  /\ Game.enemy w' = Game.enemy w
  /\ Game.sidekicks w' = Game.sidekicks w
  /\ Game.logger w' = Game.logger w
  /\ (forall self target,
        Game.call_attack self target w'
        = Game.on_world (fun w1 => Game.with_inventory w1 (snd r))
            (Game.call_attack self target w)).
Proof.
  intros r w'. subst r w'. repeat split.
  - destruct it; reflexivity.
  - destruct it; reflexivity.
  - destruct it; repeat split; reflexivity.
  - intros self target. apply call_attack_inventory.
Qed.

End InventoryFacts.

(** ** The turn engine *)

Section GameFacts.

Import Game.

(** What [use_item] comes to, in every world: it returns at once when the
    inventory holds no consumable; otherwise it reads the console until an
    offered number comes, and then raises [TypeError] at the subscript
    [consumables[choice]], whose index is the string just read.  The
    statements after the subscript are never reached. *)
Lemma use_item_unfold (w : World) :
  use_item w
  = match consumables_of (inventory w) with
    | [] => Ret tt w
    | c :: cs =>
        match get_valid_input_from (item_options (c :: cs)) (stdin w) with
        | Some (_, rest) => Raise Py.TypeError (with_stdin w rest)
        | None => Raise Py.EOFError (with_stdin w [])
        end
    end.
Proof.
  unfold use_item, bind, get.
  destruct (consumables_of (inventory w)) as [|c cs]; [reflexivity|].
  unfold get_valid_input.
  destruct (get_valid_input_from _ _) as [[choice rest]|]; reflexivity.
Qed.

(** [use_item] returns at once when the inventory holds no consumable. *)
Lemma use_item_nothing_to_use (w : World) :
  consumables_of (inventory w) = [] -> use_item w = Ret tt w.
Proof. intros He. rewrite use_item_unfold, He. reflexivity. Qed.

(** C2, what the code does.  Whenever the inventory holds a consumable and
    the player answers the item prompt with one of the offered numbers,
    [use_item] does not return: the answer is a string, and the list
    subscript [consumables[choice]] raises [TypeError].  No item is
    consumed and no health is restored. *)
Theorem use_item_raises_TypeError
    (w : World) (choice : string) (rest : list string) :
  consumables_of (inventory w) <> [] ->
  get_valid_input_from (item_options (consumables_of (inventory w)))
    (stdin w) = Some (choice, rest) ->
  use_item w = Raise Py.TypeError (with_stdin w rest).
Proof.
  intros Hne Hin. rewrite use_item_unfold.
  destruct (consumables_of (inventory w)) as [|c cs]; [contradiction|].
  rewrite Hin. reflexivity.
Qed.

(** C2 at a player holding one Health Potion who chooses item 1. *)
Lemma use_item_raises_TypeError_witness :
  let w := with_inventory (Scenario.opening ["1"])
             (Inventory.add_item Inventory.init Scenario.health_potion 1) in
  use_item w = Raise Py.TypeError (with_stdin w []).
Proof.
  intros w.
  refine (use_item_raises_TypeError w "1" [] _ _).
  - vm_compute. discriminate.
  - reflexivity.
Defined.


(** Reads the attributes of a world back through the updates made to it. *)
Tactic Notation "world_simpl" :=
  cbn [player enemy inventory logger stdin trace sidekicks draws random clock
       debug_mode with_inventory with_logger with_player with_enemy
       with_stdin with_draws with_trace final_world on_world].
Tactic Notation "world_simpl" "in" "*" :=
  cbn [player enemy inventory logger stdin trace sidekicks draws random clock
       debug_mode with_inventory with_logger with_player with_enemy
       with_stdin with_draws with_trace final_world on_world] in *.

(** An attack of a plain character or a boss adds its entry to the log and
    touches nothing else in the world. *)
Lemma call_attack_plain (w : World) (self target : Character.t) :
  Character.class self = Character.Character \/
  Character.class self = Character.Boss ->
  let total := Character.calculate_damage self (Character.damage self) in
  call_attack self target w
  = Ret (total, Character.take_damage target total)
      (with_logger w
         (GameLogger.log_combat (now w) (logger w) (Character.name self)
            (Character.name target) total None)).
Proof.
  intros [H|H] total; unfold call_attack; rewrite H; reflexivity.
Qed.

(** Whatever the class of the attacker, an attack leaves the trace, the
    inventory, the console and the two combatants of the world alone. *)
Lemma call_attack_frame (w : World) (self target : Character.t) :
  let w' := final_world (call_attack self target w) in
  trace w' = trace w /\ inventory w' = inventory w /\ stdin w' = stdin w
  /\ player w' = player w /\ enemy w' = enemy w
  /\ sidekicks w' = sidekicks w.
Proof.
  unfold call_attack.
  destruct (Character.class self) as [| |a|a].
  - cbn. repeat split.
  - cbn. repeat split.
  - unfold bind, get, lift. cbn.
    destruct (Sidekick.attack _ _ _ _) as [[[d t'] l']|e]; cbn; repeat split.
  - unfold bind, get, lift, random_random. cbn.
    destruct (Villain.attack _ _ _ _ _) as [[[d t'] l']|e]; cbn; repeat split.
Qed.

(** Loot: the gold grows by five times the enemy's damage whatever the
    two draws are; the drops only add stacks. *)
Lemma add_loot_spec (e : Character.t) (w : World) :
  exists w',
    add_loot e w = Ret tt w'
    /\ Inventory.gold (inventory w')
       = Inventory.gold (inventory w) + Character.damage e * 5
    /\ Inventory.equipment (inventory w') = Inventory.equipment (inventory w)
    /\ player w' = player w /\ enemy w' = enemy w
    /\ sidekicks w' = sidekicks w /\ logger w' = logger w
    /\ stdin w' = stdin w /\ trace w' = trace w
    /\ draws w' = S (S (draws w)).
Proof.
  unfold add_loot, bind, get, put, random_random, ret. cbn.
  destruct (Py.float_lt _ Py.float_0_5);
    destruct (Py.float_lt _ Py.float_0_3);
    eexists; (split; [reflexivity|]); cbn;
    unfold Inventory.add_item; cbn;
    repeat match goal with
           | |- context [match ?m !! ?k with _ => _ end] =>
               destruct (m !! k)
           end; cbn; repeat split.
Qed.


(** One round, split at the choice read from the console. *)
Lemma combat_round_unfold (w : World) :
  combat_round w
  = match get_valid_input_from (fst (menu w)) (stdin w) with
    | Some (choice, rest) =>
        match player_action choice (snd (menu w)) (with_stdin w rest) with
        | Ret FallThrough w' => enemy_turn w'
        | Ret Continue w' => Ret Continue w'
        | Ret (Return b) w' => Ret (Return b) w'
        | Raise e w' => Raise e w'
        end
    | None => Raise Py.EOFError (with_stdin w [])
    end.
Proof.
  unfold combat_round, display_combat_status, clear_screen, bind, ret, get,
    get_valid_input.
  destruct (menu w) as [options inventory_option]. cbn [fst snd].
  destruct (get_valid_input_from options (stdin w)) as [[choice rest]|];
    [|reflexivity].
  destruct (player_action _ _ _) as [[| |b] w'|e w']; reflexivity.
Qed.

(** The loop, split at its first round. *)
Lemma combat_unfold (fuel : nat) (w : World) :
  combat (S fuel) w
  = if (0 <? Character.get_health (player w))
       && (0 <? Character.get_health (enemy w))
    then match combat_round w with
         | Ret (Return b) w' => Ret (Returned b) w'
         | Ret _ w' => combat fuel w'
         | Raise e w' => Raise e w'
         end
    else Ret LoopLeft w.
Proof.
  cbn [combat]. unfold bind, get, ret.
  destruct (_ && _); [|reflexivity].
  destruct (combat_round w) as [[| |b] w'|e w']; reflexivity.
Qed.

(** The Attack action of a plain character that brings the enemy down. *)
Lemma player_action_attack_kill
    (w : World) (inventory_option : string) (leveled : bool)
    (p' : Character.t) :
  let total :=
    Character.calculate_damage (player w) (Character.damage (player w)) in
  Character.class (player w) = Character.Character ->
  Character.get_health (enemy w) - total <= 0 ->
  Character.gain_experience (player w) (Character.damage (enemy w) * 10)
  = Py.Ok (leveled, p') ->
  exists w',
    player_action "1" inventory_option w = Ret (Return true) w'
    /\ player w' = p'
    /\ Inventory.gold (inventory w')
       = Inventory.gold (inventory w) + Character.damage (enemy w) * 5
    /\ enemy w' = Character.take_damage (enemy w) total
    /\ stdin w' = stdin w
    /\ trace w'
       = (trace w ++ [CallPlayerAttack;
                      CallGainExperience (Character.damage (enemy w) * 10);
                      CallAddLoot])%list.
Proof.
  intros total Hcls Hdead Hxp.
  unfold player_action. cbn [String.eqb Ascii.eqb Bool.eqb].
  unfold bind at 1. unfold get at 1.
  unfold bind at 1. unfold emit at 1.
  unfold bind at 1.
  rewrite call_attack_plain by (left; exact Hcls).
  fold total.
  unfold bind at 1. unfold get at 1. unfold bind at 1. unfold put at 1.
  assert (Hz : (Character.get_health
                  (Character.take_damage (enemy w) total) <=? 0) = true).
  { apply Z.leb_le. unfold Character.take_damage, Character.set_health.
    cbn. lia. }
  rewrite Hz.
  unfold print_victory_message, print_border, press_enter.
  unfold bind, ret, emit, get, put, lift. world_simpl.
  change (Character.damage (Character.take_damage (enemy w) total))
    with (Character.damage (enemy w)).
  rewrite Hxp. unfold ret. cbv beta iota.
  match goal with
  | |- context [add_loot ?e ?w0] =>
      destruct (add_loot_spec e w0)
        as (w' & Hl & Hg & _ & Hpl & Hen & _ & _ & Hin & Htr & _)
  end.
  world_simpl in *.
  exists w'. rewrite Hl. repeat split; try assumption.
  rewrite Htr, <- !app_assoc. reflexivity.
Qed.


(** The Attack action of a plain character that leaves the enemy alive. *)
Lemma player_action_attack_survive (w : World) (inventory_option : string) :
  let total :=
    Character.calculate_damage (player w) (Character.damage (player w)) in
  Character.class (player w) = Character.Character ->
  0 < Character.get_health (enemy w) - total ->
  player_action "1" inventory_option w
  = Ret FallThrough
      (with_enemy
         (with_logger (with_trace w (trace w ++ [CallPlayerAttack]))
            (GameLogger.log_combat (now w) (logger w)
               (Character.name (player w)) (Character.name (enemy w))
               total None))
         (Character.take_damage (enemy w) total)).
Proof.
  intros total Hcls Halive.
  unfold player_action. cbn [String.eqb Ascii.eqb Bool.eqb].
  unfold bind at 1. unfold get at 1.
  unfold bind at 1. unfold emit at 1.
  unfold bind at 1.
  rewrite call_attack_plain by (left; exact Hcls).
  fold total.
  unfold bind at 1. unfold get at 1. unfold bind at 1. unfold put at 1.
  assert (Hz : (Character.get_health
                  (Character.take_damage (enemy w) total) <=? 0) = false).
  { apply Z.leb_gt. unfold Character.take_damage, Character.set_health.
    cbn. lia. }
  rewrite Hz. reflexivity.
Qed.

(** The body of the Use Item branch. *)
Lemma player_action_use_item_eq (w : World) :
  (emit CallUseItem;; use_item;; press_enter;; ret Continue)%game w
  = match use_item (with_trace w (trace w ++ [CallUseItem])) with
    | Ret _ w' => Ret Continue w'
    | Raise e w' => Raise e w'
    end.
Proof.
  unfold bind at 1. unfold emit at 1. unfold bind at 1.
  destruct (use_item _) as [[] w'|e w']; reflexivity.
Qed.

(** The Use Item action: whatever [use_item] does, then [continue]. *)
Lemma player_action_use_item (w : World) (inventory_option : string) :
  player_action "2" inventory_option w
  = match use_item (with_trace w (trace w ++ [CallUseItem])) with
    | Ret _ w' => Ret Continue w'
    | Raise e w' => Raise e w'
    end.
Proof.
  unfold player_action. cbn [String.eqb Ascii.eqb Bool.eqb].
  apply player_action_use_item_eq.
Qed.

(** The View Inventory action: a display, then [continue]. *)
Lemma player_action_view_inventory (w : World) :
  player_action (snd (menu w)) (snd (menu w)) w
  = Ret Continue (with_trace w (trace w ++ [CallDisplayInventory])).
Proof.
  unfold player_action, menu.
  destruct (sidekicks w) as [|sk sks] eqn:Es; cbn; unfold bind, get;
    rewrite ?Es; reflexivity.
Qed.

(** The Sidekick action, when the ability call returns. *)
Lemma player_action_sidekick
    (w : World) (inventory_option : string) (sk : Character.t)
    (sks : list Character.t) (p' : Character.t) (l' : GameLogger.t) :
  sidekicks w = sk :: sks ->
  Sidekick.use_support_ability (now w) sk (player w) (logger w)
  = Py.Ok (p', l') ->
  player_action "3" inventory_option w
  = Ret FallThrough
      (with_logger
         (with_player (with_trace w (trace w ++ [CallSupportAbility])) p')
         l').
Proof.
  intros Es Hab. unfold player_action. cbn [String.eqb Ascii.eqb Bool.eqb].
  unfold bind at 1. unfold get at 1. rewrite Es.
  unfold bind, emit, lift, get, put, ret. rewrite Hab. reflexivity.
Qed.

(** The enemy's turn against a dead enemy is skipped. *)
Lemma enemy_turn_dead (w : World) :
  Character.get_health (enemy w) <= 0 -> enemy_turn w = Ret Continue w.
Proof.
  intros Hd. unfold enemy_turn, bind, get, press_enter, ret.
  replace (0 <? Character.get_health (enemy w)) with false
    by (symmetry; apply Z.ltb_ge; lia).
  reflexivity.
Qed.

(** The enemy's turn against a living enemy invokes its attack once,
    whether the attack returns or raises and whoever survives it. *)
Lemma enemy_turn_alive (w : World) :
  0 < Character.get_health (enemy w) ->
  trace (final_world (enemy_turn w)) = (trace w ++ [CallEnemyAttack])%list.
Proof.
  intros Ha. unfold enemy_turn. unfold bind at 1. unfold get at 1.
  replace (0 <? Character.get_health (enemy w)) with true
    by (symmetry; apply Z.ltb_lt; lia).
  unfold bind at 1. unfold emit at 1. unfold bind at 1.
  pose proof (call_attack_frame
                (with_trace w (trace w ++ [CallEnemyAttack]))
                (enemy w) (player w)) as (Htr & _).
  destruct (call_attack (enemy w) (player w) _) as [[d p'] w2|e w2].
  - unfold bind, get, put, ret, print_defeat_message, print_border,
      press_enter.
    destruct (Character.get_health p' <=? 0); exact Htr.
  - exact Htr.
Qed.






(** The specification's scenario in full: five attacks with damage 12
    against the Goblin King (health 50, damage 8) win the encounter with
    80 points of experience and 40 gold. *)
Example goblin_king_falls_in_five :
  let o := combat 5 (Scenario.opening ["1"; "1"; "1"; "1"; "1"]) in
  (exists w', o = Ret (Returned true) w')
  /\ Character.get_health (enemy (final_world o)) = 0
  /\ Character.experience (player (final_world o)) = 80
  /\ Inventory.gold (inventory (final_world o)) = 40
  /\ List.length (GameLogger.log_history (logger (final_world o))) = 9%nat.
Proof.
  intros o. repeat split; try reflexivity.
  eexists. vm_compute. reflexivity.
Qed.

(** C6, what the code does on Use Item.  In a round in which the player
    chooses Use Item while the inventory holds a consumable, and then
    answers the item prompt, the enemy's attack is indeed not invoked, but
    control does not come back to the action menu: the round ends with the
    [TypeError] raised in [use_item], which [combat] does not catch. *)
Theorem combat_round_use_item_aborts
    (w : World) (rest : list string) (choice : string)
    (rest' : list string) :
  get_valid_input_from (fst (menu w)) (stdin w) = Some ("2", rest) ->
  consumables_of (inventory w) <> [] ->
  get_valid_input_from (item_options (consumables_of (inventory w))) rest
  = Some (choice, rest') ->
  combat_round w
  = Raise Py.TypeError
      (with_stdin (with_trace w (trace w ++ [CallUseItem])) rest').
Proof.
  intros Hin Hne Hitem.
  rewrite combat_round_unfold, Hin, player_action_use_item.
  rewrite use_item_unfold. world_simpl.
  destruct (consumables_of (inventory w)) as [|c cs]; [contradiction|].
  rewrite Hitem. reflexivity.
Qed.

(** C6 at a player holding one Health Potion who chooses Use Item and
    then item 1. *)
Lemma combat_round_use_item_aborts_witness :
  let w := with_inventory (Scenario.opening ["2"; "1"])
             (Inventory.add_item Inventory.init Scenario.health_potion 1) in
  combat_round w
  = Raise Py.TypeError
      (with_stdin (with_trace w [CallUseItem]) []).
Proof.
  intros w.
  refine (combat_round_use_item_aborts w ["1"] "1" [] _ _ _).
  - reflexivity.
  - vm_compute. discriminate.
  - reflexivity.
Defined.

(** The state in which Use Item aborts is reached by play: the potion
    dropped by the Goblin King makes the second encounter end in a
    [TypeError] as soon as the player tries to drink it. *)
Example potion_from_loot_aborts_next_encounter :
  let w1 := final_world
              (combat 5 (Scenario.opening ["1"; "1"; "1"; "1"; "1"])) in
  exists w2,
    combat 5 (Scenario.next_encounter w1 Scenario.dark_sorcerer ["2"; "1"])
    = Raise Py.TypeError w2
    /\ Character.get_health (player w2) = 78
    /\ Inventory.items (inventory w2) !! "Health Potion"
       = Some (Inventory.Stack Scenario.health_potion 1).
Proof.
  intros w1. eexists. split; [vm_compute; reflexivity|].
  split; reflexivity.
Qed.

(** The parts of C6 that hold.  View Inventory: no enemy attack, back to
    the menu. *)
Lemma round_view_inventory (w : World) (rest : list string) :
  get_valid_input_from (fst (menu w)) (stdin w)
  = Some (snd (menu w), rest) ->
  combat_round w
  = Ret Continue
      (with_trace (with_stdin w rest) (trace w ++ [CallDisplayInventory])).
Proof.
  intros Hin. rewrite combat_round_unfold, Hin.
  change (snd (menu w)) with (snd (menu (with_stdin w rest))).
  rewrite player_action_view_inventory. reflexivity.
Qed.

(** Use Item without a consumable in the inventory: no enemy attack, back
    to the menu. *)
Lemma round_use_item_without_consumables (w : World) (rest : list string) :
  get_valid_input_from (fst (menu w)) (stdin w) = Some ("2", rest) ->
  consumables_of (inventory w) = [] ->
  combat_round w
  = Ret Continue
      (with_trace (with_stdin w rest) (trace w ++ [CallUseItem])).
Proof.
  intros Hin He.
  rewrite combat_round_unfold, Hin, player_action_use_item.
  rewrite use_item_nothing_to_use by exact He. reflexivity.
Qed.

(** Attack that leaves the enemy alive: the enemy's attack is invoked
    exactly once, after the player's. *)
Lemma round_attack_enemy_survives (w : World) (rest : list string) :
  let total :=
    Character.calculate_damage (player w) (Character.damage (player w)) in
  Character.class (player w) = Character.Character ->
  get_valid_input_from (fst (menu w)) (stdin w) = Some ("1", rest) ->
  0 < Character.get_health (enemy w) - total ->
  trace (final_world (combat_round w))
  = (trace w ++ [CallPlayerAttack; CallEnemyAttack])%list.
Proof.
  intros total Hcls Hin Halive.
  rewrite combat_round_unfold, Hin.
  rewrite (player_action_attack_survive (with_stdin w rest) _ Hcls Halive).
  rewrite enemy_turn_alive.
  - world_simpl. rewrite <- app_assoc. reflexivity.
  - world_simpl. unfold Character.take_damage, Character.set_health.
    cbn. fold total. lia.
Qed.

(** Sidekick Action: the enemy's attack is invoked exactly once, after the
    sidekick's ability. *)
Lemma round_sidekick_action
    (w : World) (rest : list string) (sk : Character.t)
    (sks : list Character.t) (p' : Character.t) (l' : GameLogger.t) :
  sidekicks w = sk :: sks ->
  get_valid_input_from (fst (menu w)) (stdin w) = Some ("3", rest) ->
  Sidekick.use_support_ability (now w) sk (player w) (logger w)
  = Py.Ok (p', l') ->
  0 < Character.get_health (enemy w) ->
  trace (final_world (combat_round w))
  = (trace w ++ [CallSupportAbility; CallEnemyAttack])%list.
Proof.
  intros Es Hin Hab Halive.
  rewrite combat_round_unfold, Hin.
  rewrite (player_action_sidekick (with_stdin w rest) _ sk sks p' l' Es Hab).
  rewrite enemy_turn_alive by exact Halive.
  world_simpl. rewrite <- app_assoc. reflexivity.
Qed.


(** *** The bound on the rounds is no restriction

    Every round reads at least one line of the console and nothing puts
    lines back, so a call of [combat] with more fuel than there are lines
    never stops for lack of fuel. *)

Lemma get_valid_input_from_shorter options lines choice rest :
  get_valid_input_from options lines = Some (choice, rest) ->
  (List.length rest < List.length lines)%nat.
Proof.
  revert choice rest. induction lines as [|l ls IH]; intros choice rest H.
  - discriminate H.
  - cbn [get_valid_input_from] in H.
    destruct (Py.str_in (Py.strip l) options).
    + injection H as _ <-. cbn. lia.
    + specialize (IH _ _ H). cbn. lia.
Qed.

Lemma use_item_stdin (w : World) :
  (List.length (stdin (final_world (use_item w)))
   <= List.length (stdin w))%nat.
Proof.
  rewrite use_item_unfold.
  destruct (consumables_of (inventory w)) as [|c cs]; [reflexivity|].
  destruct (get_valid_input_from _ _) as [[choice rest]|] eqn:E.
  - apply get_valid_input_from_shorter in E. world_simpl. lia.
  - world_simpl. cbn. lia.
Qed.

Lemma player_action_stdin (choice inventory_option : string) (w : World) :
  (List.length (stdin (final_world (player_action choice inventory_option w)))
   <= List.length (stdin w))%nat.
Proof.
  unfold player_action.
  destruct (String.eqb choice "1").
  - unfold bind at 1. unfold get at 1.
    unfold bind at 1. unfold emit at 1. unfold bind at 1.
    pose proof (call_attack_frame
                  (with_trace w (trace w ++ [CallPlayerAttack]))
                  (player w) (enemy w)) as (_ & _ & Hst & Hpl & _).
    destruct (call_attack (player w) (enemy w) _) as [[d e'] w1|e w1];
      world_simpl in *; [|rewrite Hst; reflexivity].
    unfold bind at 1. unfold get at 1. unfold bind at 1. unfold put at 1.
    destruct (Character.get_health e' <=? 0);
      [|unfold ret; world_simpl; rewrite Hst; reflexivity].
    unfold print_victory_message, print_border, press_enter.
    unfold bind, ret, emit, get, put, lift. world_simpl.
    destruct (Character.gain_experience _ _) as [[lv p']|err];
      [|unfold raise; world_simpl; rewrite Hst; reflexivity].
    unfold ret. cbv beta iota.
    match goal with
    | |- context [add_loot ?e ?w0] =>
        destruct (add_loot_spec e w0)
          as (w' & Hl & _ & _ & _ & _ & _ & _ & Hin & _)
    end.
    rewrite Hl. world_simpl in *. rewrite Hin, Hst. reflexivity.
  - destruct (String.eqb choice "2").
    + rewrite player_action_use_item_eq.
      pose proof (use_item_stdin (with_trace w (trace w ++ [CallUseItem])))
        as H.
      destruct (use_item _) as [[] w1|e w1]; exact H.
    + unfold bind at 1. unfold get at 1.
      destruct (if String.eqb choice "3" then sidekicks w else [])
        as [|sk sks].
      * destruct (String.eqb choice inventory_option); reflexivity.
      * unfold bind, emit, lift, get, put, ret, raise.
        destruct (Sidekick.use_support_ability _ _ _ _) as [[p' l']|err];
          reflexivity.
Qed.

Lemma enemy_turn_stdin (w : World) :
  stdin (final_world (enemy_turn w)) = stdin w.
Proof.
  unfold enemy_turn. unfold bind at 1. unfold get at 1.
  destruct (0 <? Character.get_health (enemy w)); [|reflexivity].
  unfold bind at 1. unfold emit at 1. unfold bind at 1.
  pose proof (call_attack_frame
                (with_trace w (trace w ++ [CallEnemyAttack]))
                (enemy w) (player w)) as (_ & _ & Hst & _).
  destruct (call_attack (enemy w) (player w) _) as [[d p'] w2|e w2];
    [|exact Hst].
  unfold bind, get, put, ret, print_defeat_message, print_border,
    press_enter.
  destruct (Character.get_health p' <=? 0); exact Hst.
Qed.

(** A round that returns has read at least one line. *)
Lemma combat_round_consumes (w : World) (c : control) (w' : World) :
  combat_round w = Ret c w' ->
  (List.length (stdin w') < List.length (stdin w))%nat.
Proof.
  rewrite combat_round_unfold.
  destruct (get_valid_input_from _ _) as [[choice rest]|] eqn:Ein;
    [|discriminate].
  apply get_valid_input_from_shorter in Ein.
  pose proof (player_action_stdin choice (snd (menu w)) (with_stdin w rest))
    as Hact.
  destruct (player_action _ _ _) as [[| |b] w1|e w1]; world_simpl in *.
  - intros H. pose proof (enemy_turn_stdin w1) as Hen.
    rewrite H in Hen. world_simpl in *. rewrite Hen. lia.
  - intros [= _ <-]. lia.
  - intros [= _ <-]. lia.
  - discriminate.
Qed.

(** With more fuel than console lines, [combat] never runs out of fuel:
    it returns a verdict of the source or raises. *)
Lemma combat_fuel_suffices (fuel : nat) (w w' : World) :
  (List.length (stdin w) < fuel)%nat ->
  combat fuel w <> Ret OutOfFuel w'.
Proof.
  revert w. induction fuel as [|fuel IH]; intros w Hlen; [lia|].
  rewrite combat_unfold.
  destruct (_ && _); [|discriminate].
  destruct (combat_round w) as [c w1|e w1] eqn:Er; [|discriminate].
  apply combat_round_consumes in Er.
  destruct c as [| |b]; try discriminate; apply IH; lia.
Qed.

(** [run_combat] always comes to a verdict of the source or an exception. *)
Lemma run_combat_total (w w' : World) : run_combat w <> Ret OutOfFuel w'.
Proof. unfold run_combat. apply combat_fuel_suffices. lia. Qed.

End GameFacts.

(** * Further properties of the code *)

(** ** Damage and experience *)

Section CharacterMore.

(** A second hit of non-negative damage adds up with the first. *)
Lemma take_damage_twice (c : Character.t) (a b : Z) :
  0 <= b ->
  Character.take_damage (Character.take_damage c a) b
  = Character.take_damage c (a + b).
Proof.
  intros Hb. unfold Character.take_damage, Character.set_health,
    Character.get_health, Character.with_health.
  cbn [Character._health Character.class Character.name Character.damage
       Character.weapon Character.is_boss Character.level
       Character.experience Character.experience_to_next_level
       Character.debug_mode].
  f_equal. lia.
Qed.

(** X1. Hits of a non-negative damage [d] add up until the health reaches
    zero: after [k + 1] calls of [take_damage(d)] the health is
    [max(0, health - (k + 1) x d)], and the character is dead exactly when
    [(k + 1) x d] covers the health it had. *)
Theorem take_damage_repeated (c : Character.t) (d : Z) (k : nat) :
  0 <= d ->
  let c' := Nat.iter (S k) (fun x => Character.take_damage x d) c in
  Character.get_health c'
  = Z.max 0 (Character.get_health c - Z.of_nat (S k) * d)
  /\ (Character.is_alive c' = false
      <-> Character.get_health c <= Z.of_nat (S k) * d).
Proof.
  intros Hd c'. subst c'.
  assert (Hiter : Nat.iter (S k) (fun x => Character.take_damage x d) c
                  = Character.take_damage c (Z.of_nat (S k) * d)).
  { induction k as [|k IH].
    - cbn [Nat.iter nat_rect]. f_equal. lia.
    - rewrite Nat.iter_succ, IH, take_damage_twice by assumption.
      f_equal. lia. }
  rewrite Hiter. unfold Character.is_alive, Character.take_damage,
    Character.set_health, Character.get_health.
  cbn [Character.with_health Character._health]. split; [reflexivity|].
  rewrite Z.ltb_ge. lia.
Qed.

(** X1 at the Goblin King under the blows of the starting player: after
    five hits of 12 its health of 50 is gone. *)
Lemma take_damage_repeated_witness :
  let c' := Nat.iter 5 (fun x => Character.take_damage x 12)
              Scenario.goblin_king in
  Character.get_health c' = 0 /\ Character.is_alive c' = false.
Proof.
  intros c'.
  destruct (take_damage_repeated Scenario.goblin_king 12 4) as [Hh Ha].
  - concrete.
  - split; [exact Hh|]. apply Ha. concrete.
Defined.

(** X2. A call of [gain_experience] that returns keeps the threshold at
    [100 x level], raises the level by at most one, and leaves the
    experience strictly below the threshold: for a character of
    non-negative level, [get_experience_to_next_level()] is positive after
    every call. *)
Theorem gain_experience_stays_below_threshold
    (c c' : Character.t) (a : Z) (leveled : bool) :
  Spec.level_invariant c ->
  0 <= Character.level c ->
  Character.gain_experience c a = Py.Ok (leveled, c') ->
  Spec.level_invariant c'
  /\ 0 < CharacterQueries.get_experience_to_next_level c'
  /\ CharacterQueries.get_level c'
     = CharacterQueries.get_level c + (if leveled then 1 else 0)
  /\ (leveled = true -> CharacterQueries.get_experience c' = 0)
  /\ (leveled = false ->
      CharacterQueries.get_experience c'
      = CharacterQueries.get_experience c + a).
Proof.
  unfold Spec.level_invariant, Character.gain_experience,
    Character.level_up, CharacterQueries.get_experience_to_next_level,
    CharacterQueries.get_level, CharacterQueries.get_experience.
  intros Hinv Hlev.
  cbn [Character.experience_to_next_level Character.experience].
  destruct (Z.leb_spec (Character.experience_to_next_level c)
              (Character.experience c + a)) as [Hle|Hlt].
  - cbn [Character._health Character.damage Character.level].
    destruct (Py.int_of_mul _ _); [|discriminate].
    destruct (Py.int_of_mul _ _); [|discriminate].
    cbn [Py.rbind]. intros [= <- <-].
    cbn [Character.experience_to_next_level Character.experience
         Character.level].
    unfold Character.calculate_experience_to_next_level.
    repeat split; try lia; discriminate.
  - intros [= <- <-].
    cbn [Character.experience_to_next_level Character.experience
         Character.level].
    repeat split; try lia; discriminate.
Qed.

(** X2 at the starting player and the reward for the Goblin King: 20
    points are missing for level 2. *)
Lemma gain_experience_stays_below_threshold_witness :
  exists c',
    Character.gain_experience Scenario.hero 80 = Py.Ok (false, c')
    /\ 0 < CharacterQueries.get_experience_to_next_level c'.
Proof.
  eexists. split; [reflexivity|].
  refine (proj1 (proj2 (gain_experience_stays_below_threshold
                          Scenario.hero _ 80 false _ _ _)));
    [reflexivity | concrete | reflexivity].
Defined.



End CharacterMore.

(** ** The three [attack] methods *)

Section AttackFacts.

Import Game.







End AttackFacts.

(** ** The inventory as a store *)

Section InventoryMore.

Lemma add_item_lookup (inv : Inventory.t) (it : Item.t) (q : Z) :
  Inventory.items (Inventory.add_item inv it q) !! Item.name it
  = Some match Inventory.items inv !! Item.name it with
         | Some st =>
             Inventory.Stack (Inventory.item st) (Inventory.quantity st + q)
         | None => Inventory.Stack it q
         end.
Proof.
  unfold Inventory.add_item.
  destruct (Inventory.items inv !! Item.name it);
    cbn [Inventory.items]; apply lookup_insert_eq.
Qed.

Lemma add_item_lookup_ne (inv : Inventory.t) (it : Item.t) (q : Z) k :
  k <> Item.name it ->
  Inventory.items (Inventory.add_item inv it q) !! k
  = Inventory.items inv !! k.
Proof.
  intros Hk. unfold Inventory.add_item.
  destruct (Inventory.items inv !! Item.name it);
    cbn [Inventory.items]; apply lookup_insert_ne; congruence.
Qed.

Lemma add_item_frame (inv : Inventory.t) (it : Item.t) (q : Z) :
  Inventory.equipment (Inventory.add_item inv it q) = Inventory.equipment inv
  /\ Inventory.gold (Inventory.add_item inv it q) = Inventory.gold inv.
Proof.
  unfold Inventory.add_item.
  destruct (Inventory.items inv !! Item.name it); split; reflexivity.
Qed.

(** Adding a positive quantity keeps the inventory well formed. *)
Lemma add_item_wellformed (inv : Inventory.t) (it : Item.t) (q : Z) :
  0 < q ->
  Wellformed.inventory inv ->
  Wellformed.inventory (Inventory.add_item inv it q).
Proof.
  intros Hq [Hkey Hpos]. split; intros k st Hk.
  - destruct (decide (k = Item.name it)) as [->|Hne].
    + rewrite add_item_lookup in Hk. injection Hk as <-.
      destruct (Inventory.items inv !! Item.name it) as [st0|] eqn:E.
      * cbn [Inventory.item]. exact (Hkey _ _ E).
      * reflexivity.
    + rewrite add_item_lookup_ne in Hk by assumption. exact (Hkey _ _ Hk).
  - destruct (decide (k = Item.name it)) as [->|Hne].
    + rewrite add_item_lookup in Hk. injection Hk as <-.
      destruct (Inventory.items inv !! Item.name it) as [st0|] eqn:E.
      * cbn [Inventory.quantity]. specialize (Hpos _ _ E). lia.
      * exact Hq.
    + rewrite add_item_lookup_ne in Hk by assumption. exact (Hpos _ _ Hk).
Qed.

(** The empty inventory is well formed. *)
Lemma init_wellformed : Wellformed.inventory Inventory.init.
Proof.
  split; intros k st Hk; unfold Inventory.init in Hk;
    cbn [Inventory.items] in Hk; rewrite lookup_empty in Hk; discriminate.
Qed.

(** A removal keeps the inventory well formed. *)
Lemma remove_item_wellformed (inv : Inventory.t) (name : string) (q : Z) :
  Wellformed.inventory inv ->
  Wellformed.inventory (snd (Inventory.remove_item inv name q)).
Proof.
  intros [Hkey Hpos]. unfold Inventory.remove_item.
  destruct (Inventory.items inv !! name) as [st|] eqn:Hst;
    [|split; assumption].
  destruct (Z.leb_spec q (Inventory.quantity st)) as [Hle|Hgt];
    [|split; assumption].
  cbn [snd]. specialize (Hkey _ _ Hst) as Hn. specialize (Hpos _ _ Hst) as Hp.
  destruct (Z.eqb_spec (Inventory.quantity st - q) 0) as [Hz|Hnz].
  - split; intros k st' Hk; cbn [Inventory.items] in Hk;
      apply lookup_delete_Some in Hk as [Hne Hk];
      rewrite lookup_insert_ne in Hk by assumption;
      [exact (Hkey _ _ Hk) | exact (Hpos _ _ Hk)].
  - split; intros k st' Hk; cbn [Inventory.items] in Hk;
      apply lookup_insert_Some in Hk as [[<- <-]|[Hne Hk]].
    + exact Hn.
    + exact (Hkey _ _ Hk).
    + cbn [Inventory.quantity]. lia.
    + exact (Hpos _ _ Hk).
Qed.

(** X5. [add_item] files an item under its name.  If the name is taken,
    the stored item stays and only the quantity grows; the item handed in
    is not stored, whatever it is.  No other stack, nor the gold or the
    equipment, changes, and for a positive quantity the inventory stays
    well formed (every stack under the name of its item, every quantity
    positive). *)
Theorem add_item_merges_by_name
    (inv : Inventory.t) (it : Item.t) (q : Z) :
  0 < q ->
  Wellformed.inventory inv ->
  let inv' := Inventory.add_item inv it q in
  Wellformed.inventory inv'
  /\ (forall st, Inventory.items inv !! Item.name it = Some st ->
        Inventory.items inv' !! Item.name it
        = Some (Inventory.Stack (Inventory.item st)
                  (Inventory.quantity st + q)))
  /\ (Inventory.items inv !! Item.name it = None ->
      Inventory.items inv' !! Item.name it = Some (Inventory.Stack it q))
  /\ (forall k, k <> Item.name it ->
        Inventory.items inv' !! k = Inventory.items inv !! k)
  /\ Inventory.equipment inv' = Inventory.equipment inv
  /\ Inventory.gold inv' = Inventory.gold inv.
Proof.
  intros Hq Hwf inv'. subst inv'.
  split; [apply add_item_wellformed; assumption|].
  split; [intros st Hst; rewrite add_item_lookup, Hst; reflexivity|].
  split; [intros Hno; rewrite add_item_lookup, Hno; reflexivity|].
  split; [intros k Hk; apply add_item_lookup_ne; exact Hk|].
  apply add_item_frame.
Qed.

(** X5 where a plain item named like the potion is handed in: the stack
    of the potion grows to two, and the potion stays the stored item. *)
Lemma add_item_merges_by_name_witness :
  let inv := Inventory.add_item Inventory.init Scenario.health_potion 1 in
  let junk := Item.Item "Health Potion" "An empty bottle" 0 in
  Inventory.items (Inventory.add_item inv junk 1) !! "Health Potion"
  = Some (Inventory.Stack Scenario.health_potion 2).
Proof.
  intros inv junk.
  assert (Hwf : Wellformed.inventory inv).
  { apply add_item_wellformed; [lia|].
    apply init_wellformed. }
  exact (proj1 (proj2 (add_item_merges_by_name inv junk 1 ltac:(lia) Hwf))
           (Inventory.Stack Scenario.health_potion 1) eq_refl).
Defined.



(** X7. [use_consumable(item)] on an inventory with positive quantities:
    it succeeds exactly when the object handed in is a [Consumable] and a
    stack is filed under its name, whatever that stack holds; then one
    unit is taken from the stack, and the stack is dropped when it was the
    last.  Otherwise nothing changes.  The gold and the equipment never
    change, and a well-formed inventory stays well formed. *)
Theorem use_consumable_takes_one (inv : Inventory.t) (it : Item.t) :
  Inventory.quantities_positive inv ->
  let r := Inventory.use_consumable inv it in
  (forall st,
      Item.is_consumable it = true ->
      Inventory.items inv !! Item.name it = Some st ->
      fst r = true
      /\ Inventory.items (snd r)
         = if Inventory.quantity st =? 1
           then delete (Item.name it) (Inventory.items inv)
           else <[Item.name it :=
                    Inventory.Stack (Inventory.item st)
                      (Inventory.quantity st - 1)]> (Inventory.items inv))
  /\ (Item.is_consumable it = false \/
      Inventory.items inv !! Item.name it = None ->
      r = (false, inv))
  /\ Inventory.gold (snd r) = Inventory.gold inv
  /\ Inventory.equipment (snd r) = Inventory.equipment inv
  /\ (Wellformed.keyed_by_name inv -> Wellformed.inventory (snd r)).
Proof.
  intros Hpos r. subst r. unfold Inventory.use_consumable.
  destruct (Inventory.items inv !! Item.name it) as [st|] eqn:Hst.
  - specialize (Hpos _ _ Hst) as Hp.
    rewrite bool_decide_eq_true_2 by (eexists; reflexivity).
    cbn [andb].
    destruct (Item.is_consumable it) eqn:Hc.
    + pose proof (remove_item_wellformed inv (Item.name it) 1) as Hwf.
      rewrite (remove_item_success _ _ _ _ Hst) in * by lia.
      cbn [fst snd Inventory.items Inventory.gold Inventory.equipment] in *.
      split.
      { intros st' _ [= <-]. split; [reflexivity|].
        destruct (Z.eqb_spec (Inventory.quantity st - 1) 0);
          destruct (Z.eqb_spec (Inventory.quantity st) 1);
          try lia; reflexivity. }
      split; [intros [H|H]; discriminate|].
      split; [reflexivity|]. split; [reflexivity|].
      intros Hkey. apply Hwf. split; assumption.
    + split; [intros st' H; discriminate|].
      split; [reflexivity|]. split; [reflexivity|]. split; [reflexivity|].
      intros Hkey. split; assumption.
  - rewrite bool_decide_eq_false_2 by (intros [x Hx]; discriminate).
    cbn [andb].
    split; [intros st' _ H; discriminate|].
    split; [reflexivity|]. split; [reflexivity|]. split; [reflexivity|].
    intros Hkey. split; assumption.
Qed.

(** X7 where the stack filed under "Health Potion" holds a plain item
    and a consumable of that name is handed in: the call succeeds and
    the plain item is gone. *)
Lemma use_consumable_takes_one_witness :
  let junk := Item.Item "Health Potion" "An empty bottle" 0 in
  let inv := Inventory.add_item Inventory.init junk 1 in
  let r := Inventory.use_consumable inv Scenario.health_potion in
  fst r = true
  /\ Inventory.items (snd r) = delete "Health Potion" (Inventory.items inv).
Proof.
  intros junk inv r.
  assert (Hpos : Inventory.quantities_positive inv).
  { apply (add_item_wellformed Inventory.init junk 1); [lia|].
    apply init_wellformed. }
  exact (proj1 (use_consumable_takes_one inv Scenario.health_potion Hpos)
           (Inventory.Stack junk 1) eq_refl eq_refl).
Defined.

End InventoryMore.

(** ** The turn engine: what a whole [combat] does and never does *)

Ltac wsimpl :=
  cbn [Game.player Game.enemy Game.inventory Game.logger Game.stdin
       Game.trace Game.sidekicks Game.draws Game.random Game.clock
       Game.debug_mode Game.with_inventory Game.with_logger
       Game.with_player Game.with_enemy Game.with_stdin Game.with_draws
       Game.with_trace Game.final_world Game.on_world
       GameLogger.log_history GameLogger.log_to_console
       GameLogger.log_combat] in *.

Ltac extends_tac :=
  unfold Frame.extends; wsimpl;
  repeat split;
  solve [ reflexivity | eexists; reflexivity | lia
        | apply prefix_app_r; reflexivity ].

Section EngineFacts.

Import Game.

Lemma extends_refl (w : World) : Frame.extends w w.
Proof. unfold Frame.extends. repeat split; reflexivity. Qed.

Lemma extends_trans (w1 w2 w3 : World) :
  Frame.extends w1 w2 -> Frame.extends w2 w3 -> Frame.extends w1 w3.
Proof.
  intros (A1 & A2 & A3 & A4 & A5 & A6 & A7 & A8 & A9)
         (B1 & B2 & B3 & B4 & B5 & B6 & B7 & B8 & B9).
  unfold Frame.extends. repeat split; try congruence;
    try (etrans; eassumption).
Qed.

Lemma same_but_health_refl (c : Character.t) : Frame.same_but_health c c.
Proof. destruct c. reflexivity. Qed.

Lemma same_but_health_trans (a b c : Character.t) :
  Frame.same_but_health a b -> Frame.same_but_health b c ->
  Frame.same_but_health a c.
Proof.
  unfold Frame.same_but_health. intros -> ->. reflexivity.
Qed.

Lemma same_but_health_take_damage (c : Character.t) d :
  Frame.same_but_health c (Character.take_damage c d).
Proof. reflexivity. Qed.

Lemma holds_at_least_refl inv : Frame.holds_at_least inv inv.
Proof. intros k st H. exists st. split; [exact H|]. split; [reflexivity|lia]. Qed.

Lemma holds_at_least_trans a b c :
  Frame.holds_at_least a b -> Frame.holds_at_least b c ->
  Frame.holds_at_least a c.
Proof.
  intros Hab Hbc k st H.
  destruct (Hab _ _ H) as (st1 & H1 & I1 & Q1).
  destruct (Hbc _ _ H1) as (st2 & H2 & I2 & Q2).
  exists st2. split; [exact H2|]. split; [congruence|lia].
Qed.

Lemma add_item_holds_at_least inv it q :
  0 <= q -> Frame.holds_at_least inv (Inventory.add_item inv it q).
Proof.
  intros Hq k st H. destruct (decide (k = Item.name it)) as [->|Hne].
  - rewrite add_item_lookup, H. eexists. split; [reflexivity|].
    cbn [Inventory.item Inventory.quantity]. split; [reflexivity|lia].
  - rewrite add_item_lookup_ne by assumption. exists st.
    split; [exact H|]. split; [reflexivity|lia].
Qed.

(** An attack only adds to the log and to the count of draws; the target
    it returns is the target after [take_damage], or the target itself. *)
Lemma call_attack_post (w : World) (self target : Character.t) :
  let o := call_attack self target w in
  Frame.extends w (final_world o)
  /\ match o with
     | Ret (d, t') _ => t' = Character.take_damage target d \/ t' = target
     | Raise _ _ => True
     end.
Proof.
  unfold call_attack.
  destruct (Character.class self) as [| |a|a].
  - cbn. split; [extends_tac|left; reflexivity].
  - cbn. split; [extends_tac|left; reflexivity].
  - unfold bind, get, lift, Sidekick.attack.
    destruct (Py.int_of_mul _ _) as [r|e]; cbn;
      (split; [extends_tac|try (left; reflexivity); exact I]).
  - unfold bind, get, lift, random_random, Villain.attack.
    destruct (Py.float_lt _ _).
    + unfold Villain.use_special_ability.
      destruct (Character.special_ability self) as [sa|e]; cbn;
        [|split; [extends_tac|exact I]].
      destruct (String.eqb _ _); cbn;
        (split; [extends_tac|]); [left|right]; reflexivity.
    + destruct (Py.int_of_mul _ _) as [r|e]; cbn;
        (split; [extends_tac|try (left; reflexivity); exact I]).
Qed.

(** A support ability never harms its target and only adds to the log. *)
Lemma use_support_ability_post now s t l t' l' :
  Sidekick.use_support_ability now s t l = Py.Ok (t', l') ->
  Frame.same_but_health t t'
  /\ (0 < Character.get_health t -> 0 < Character.get_health t')
  /\ GameLogger.log_history l `prefix_of` GameLogger.log_history l'
  /\ GameLogger.log_to_console l' = GameLogger.log_to_console l.
Proof.
  unfold Sidekick.use_support_ability.
  destruct (Character.support_ability s) as [a|e]; [|discriminate].
  cbn [Py.rbind].
  assert (Hsame : Frame.same_but_health t t /\
                  (0 < Character.get_health t -> 0 < Character.get_health t)
                  /\ GameLogger.log_history l
                       `prefix_of` GameLogger.log_history l
                  /\ GameLogger.log_to_console l
                     = GameLogger.log_to_console l).
  { split; [apply same_but_health_refl|]. repeat split; auto. }
  destruct (String.eqb _ "heal"); [|intros [= <- <-]; exact Hsame].
  destruct (Py.float_of_int _); [|discriminate]. cbn [Py.rbind].
  destruct (Z.ltb_spec 0 (if String.eqb (Character.name s) "Healing Spirit"
                          then 15 else Character.damage s / 2)) as [Hh|Hh];
    [|intros [= <- <-]; exact Hsame].
  intros [= <- <-]. split; [reflexivity|].
  split.
  - unfold Character.set_health, Character.get_health. cbn. lia.
  - cbn. split; [apply prefix_app_r|]; reflexivity.
Qed.

Lemma wellformed_items a b :
  Inventory.items a = Inventory.items b ->
  Wellformed.inventory a -> Wellformed.inventory b.
Proof.
  unfold Wellformed.inventory, Wellformed.keyed_by_name,
    Inventory.quantities_positive. intros ->. tauto.
Qed.

Lemma holds_at_least_items a b :
  Inventory.items a = Inventory.items b -> Frame.holds_at_least a b.
Proof.
  intros E k st H. exists st. rewrite <- E.
  split; [exact H|]. split; [reflexivity|lia].
Qed.

(** Loot: two draws, gold, and at most two additions to the stacks. *)
Lemma add_loot_post (e : Character.t) (w : World) :
  exists w',
    add_loot e w = Ret tt w'
    /\ Frame.extends w w'
    /\ player w' = player w /\ enemy w' = enemy w
    /\ Inventory.gold (inventory w')
       = Inventory.gold (inventory w) + Character.damage e * 5
    /\ Inventory.equipment (inventory w') = Inventory.equipment (inventory w)
    /\ Frame.holds_at_least (inventory w) (inventory w')
    /\ (Wellformed.inventory (inventory w) ->
        Wellformed.inventory (inventory w')).
Proof.
  unfold add_loot, bind, get, put, random_random, ret. cbn.
  set (inv0 := Inventory.Build (Inventory.items (inventory w))
                 (Inventory.equipment (inventory w))
                 (Inventory.gold (inventory w) + Character.damage e * 5)).
  assert (H0 : Frame.holds_at_least (inventory w) inv0)
    by (apply holds_at_least_items; reflexivity).
  assert (W0 : Wellformed.inventory (inventory w) -> Wellformed.inventory inv0)
    by (apply wellformed_items; reflexivity).
  destruct (Py.float_lt _ Py.float_0_5);
    destruct (Py.float_lt _ Py.float_0_3);
    eexists; (split; [reflexivity|]); wsimpl;
    (split; [extends_tac|]);
    (split; [reflexivity|]); (split; [reflexivity|]);
    rewrite ?(proj2 (add_item_frame _ _ _)), ?(proj1 (add_item_frame _ _ _));
    (split; [reflexivity|]); (split; [reflexivity|]).
  - split.
    + eapply holds_at_least_trans; [exact H0|].
      eapply holds_at_least_trans; apply add_item_holds_at_least; lia.
    + intros Hwf. do 2 (apply add_item_wellformed; [lia|]). auto.
  - split.
    + eapply holds_at_least_trans; [exact H0|].
      apply add_item_holds_at_least; lia.
    + intros Hwf. apply add_item_wellformed; [lia|]. auto.
  - split.
    + eapply holds_at_least_trans; [exact H0|].
      apply add_item_holds_at_least; lia.
    + intros Hwf. apply add_item_wellformed; [lia|]. auto.
  - split; [exact H0|exact W0].
Qed.

Lemma get_valid_input_from_suffix options lines choice rest :
  get_valid_input_from options lines = Some (choice, rest) ->
  rest `suffix_of` lines.
Proof.
  revert choice rest. induction lines as [|l ls IH]; intros choice rest H.
  - discriminate H.
  - cbn [get_valid_input_from] in H.
    destruct (Py.str_in (Py.strip l) options).
    + injection H as _ <-. apply suffix_cons_r. reflexivity.
    + apply suffix_cons_r. exact (IH _ _ H).
Qed.

(** [use_item] either finds nothing to use and does nothing, or raises
    after reading the choice of the item. *)
Lemma use_item_post (w : World) :
  let o := use_item w in
  Frame.extends w (final_world o)
  /\ inventory (final_world o) = inventory w
  /\ player (final_world o) = player w
  /\ enemy (final_world o) = enemy w
  /\ match o with Ret _ w' => w' = w | Raise _ _ => True end.
Proof.
  cbv zeta. rewrite use_item_unfold.
  destruct (consumables_of (inventory w)) as [|c cs].
  - wsimpl. split; [apply extends_refl|]. repeat split.
  - destruct (get_valid_input_from _ _) as [[choice rest]|] eqn:E; wsimpl.
    + apply get_valid_input_from_suffix in E.
      split; [|repeat split].
      unfold Frame.extends; wsimpl. repeat split; try reflexivity. exact E.
    + split; [|repeat split].
      unfold Frame.extends; wsimpl. repeat split; try reflexivity.
      apply suffix_nil.
Qed.

Lemma same_but_health_damage c c' :
  Frame.same_but_health c c' -> Character.damage c' = Character.damage c.
Proof. intros ->. reflexivity. Qed.

Lemma player_action_post (choice io : string) (w : World) :
  0 < Character.get_health (player w) ->
  0 < Character.get_health (enemy w) ->
  let o := player_action choice io w in
  let w' := final_world o in
  Frame.extends w w'
  /\ Frame.same_but_health (enemy w) (enemy w')
  /\ Inventory.equipment (inventory w') = Inventory.equipment (inventory w)
  /\ match o with
     | Ret (Return true) _ =>
         Character.get_health (enemy w') = 0
         /\ Inventory.gold (inventory w')
            = Inventory.gold (inventory w) + Character.damage (enemy w) * 5
         /\ Frame.holds_at_least (inventory w) (inventory w')
         /\ (Wellformed.inventory (inventory w) ->
             Wellformed.inventory (inventory w'))
     | Ret (Return false) _ => False
     | Ret _ _ =>
         0 < Character.get_health (player w')
         /\ 0 < Character.get_health (enemy w')
         /\ inventory w' = inventory w
     | Raise _ _ => inventory w' = inventory w
     end.
Proof.
  intros Hp He o. assert (Ho : o = player_action choice io w) by reflexivity.
  clearbody o. cbv zeta. unfold player_action in Ho.
  destruct (String.eqb choice "1").
  - unfold bind at 1 in Ho. unfold get at 1 in Ho.
    unfold bind at 1 in Ho. unfold emit at 1 in Ho. unfold bind at 1 in Ho.
    set (w0 := with_trace w (trace w ++ [CallPlayerAttack])) in *.
    assert (E0 : Frame.extends w w0) by (subst w0; extends_tac).
    pose proof (call_attack_frame w0 (player w) (enemy w))
      as (Ftr & Finv & Fst & Fpl & Fen & Fsk).
    pose proof (call_attack_post w0 (player w) (enemy w)) as (Fext & Ftgt).
    cbv zeta in *.
    destruct (call_attack (player w) (enemy w) w0) as [[d e'] w1|e w1].
    + cbn [final_world] in *.
      assert (Hsame : Frame.same_but_health (enemy w) e').
      { destruct Ftgt as [->| ->];
          [apply same_but_health_take_damage|apply same_but_health_refl]. }
      assert (E1 : Frame.extends w w1) by (eapply extends_trans; eassumption).
      unfold bind at 1 in Ho. unfold get at 1 in Ho.
      unfold bind at 1 in Ho. unfold put at 1 in Ho.
      destruct (Z.leb_spec (Character.get_health e') 0) as [Hdead|Halive].
      * unfold print_victory_message, print_border, press_enter in Ho.
        unfold bind, ret, emit, get, put, lift in Ho. wsimpl.
        assert (Hzero : Character.get_health e' = 0).
        { destruct Ftgt as [->| ->]; [|lia].
          unfold Character.take_damage, Character.set_health,
            Character.get_health in *. cbn in *. lia. }
        destruct (Character.gain_experience _ _) as [[lv p']|err].
        -- unfold ret in Ho. cbv beta iota in Ho.
           match type of Ho with
           | context [add_loot ?e ?wl] =>
               destruct (add_loot_post e wl)
                 as (w' & Hl & Lext & Lpl & Len & Lgold & Leq & Lhold & Lwf)
           end.
           rewrite Hl in Ho. subst o. wsimpl.
           rewrite Len, Lgold, Leq, Finv. subst w0. wsimpl.
           split.
           { eapply extends_trans; [|exact Lext].
             revert E1. unfold Frame.extends. wsimpl.
             intros (A1 & A2 & A3 & A4 & A5 & A6 & A7 & A8 & A9).
             repeat split; try assumption.
             do 2 apply prefix_app_r. exact A3. }
           split; [exact Hsame|]. split; [reflexivity|].
           split; [exact Hzero|].
           split; [rewrite (same_but_health_damage _ _ Hsame); reflexivity|].
           rewrite Finv in Lhold, Lwf. wsimpl. split; assumption.
        -- unfold raise in Ho. subst o. wsimpl.
           split.
           { revert E1. unfold Frame.extends. wsimpl.
             intros (A1 & A2 & A3 & A4 & A5 & A6 & A7 & A8 & A9).
             repeat split; try assumption.
             apply prefix_app_r. exact A3. }
           split; [exact Hsame|]. rewrite Finv. subst w0. wsimpl.
           split; reflexivity.
      * unfold ret in Ho. subst o. wsimpl.
        split; [revert E1; unfold Frame.extends; wsimpl; tauto|].
        split; [exact Hsame|].
        rewrite Finv, Fpl. subst w0. wsimpl. repeat split; auto.
    + subst o. cbn [final_world] in *.
      split; [eapply extends_trans; eassumption|].
      rewrite Fen, Finv. subst w0. wsimpl.
      split; [apply same_but_health_refl|]. split; reflexivity.
  - destruct (String.eqb choice "2").
    + rewrite player_action_use_item_eq in Ho.
      set (w0 := with_trace w (trace w ++ [CallUseItem])) in *.
      assert (E0 : Frame.extends w w0) by (subst w0; extends_tac).
      pose proof (use_item_post w0) as (Uext & Uinv & Upl & Uen & Uret).
      cbv zeta in *.
      destruct (use_item w0) as [[] w1|e w1]; subst o; cbn [final_world] in *.
      * subst w1. subst w0. wsimpl.
        split; [exact E0|]. split; [apply same_but_health_refl|].
        repeat split; auto.
      * rewrite Uen, Uinv. subst w0. wsimpl.
        split; [eapply extends_trans; eassumption|].
        split; [apply same_but_health_refl|]. split; reflexivity.
    + unfold bind at 1 in Ho. unfold get at 1 in Ho.
      destruct (if String.eqb choice "3" then sidekicks w else [])
        as [|sk sks].
      * destruct (String.eqb choice io).
        -- unfold bind, emit, display_inventory, press_enter, ret in Ho.
           subst o. wsimpl.
           split; [extends_tac|]. split; [apply same_but_health_refl|].
           repeat split; auto.
        -- unfold ret in Ho. subst o. wsimpl.
           split; [apply extends_refl|]. split; [apply same_but_health_refl|].
           repeat split; auto.
      * unfold bind, emit, lift, get, put, ret, raise in Ho.
        destruct (Sidekick.use_support_ability _ _ _ _) as [[p' l']|err]
          eqn:Eab.
        -- apply use_support_ability_post in Eab
             as (Hsb & Hal & Hlog & Hcon).
           subst o. wsimpl.
           split.
           { unfold Frame.extends. wsimpl.
             repeat split; try assumption; try reflexivity.
             apply prefix_app_r. reflexivity. }
           split; [apply same_but_health_refl|].
           repeat split; auto.
        -- subst o. wsimpl.
           split; [extends_tac|]. split; [apply same_but_health_refl|].
           split; reflexivity.
Qed.

Lemma enemy_turn_post (w : World) :
  0 < Character.get_health (player w) ->
  let o := enemy_turn w in
  let w' := final_world o in
  Frame.extends w w'
  /\ inventory w' = inventory w
  /\ enemy w' = enemy w
  /\ match o with
     | Ret (Return false) _ => Character.get_health (player w') = 0
     | Ret Continue _ => 0 < Character.get_health (player w')
     | Ret _ _ => False
     | Raise _ _ => True
     end.
Proof.
  intros Hp o. assert (Ho : o = enemy_turn w) by reflexivity.
  clearbody o. cbv zeta. unfold enemy_turn in Ho.
  unfold bind at 1 in Ho. unfold get at 1 in Ho.
  destruct (0 <? Character.get_health (enemy w)).
  - unfold bind at 1 in Ho. unfold emit at 1 in Ho. unfold bind at 1 in Ho.
    set (w0 := with_trace w (trace w ++ [CallEnemyAttack])) in *.
    assert (E0 : Frame.extends w w0) by (subst w0; extends_tac).
    pose proof (call_attack_frame w0 (enemy w) (player w))
      as (Ftr & Finv & Fst & Fpl & Fen & Fsk).
    pose proof (call_attack_post w0 (enemy w) (player w)) as (Fext & Ftgt).
    cbv zeta in *.
    destruct (call_attack (enemy w) (player w) w0) as [[d p'] w1|e w1];
      cbn [final_world] in *.
    + assert (E1 : Frame.extends w w1) by (eapply extends_trans; eassumption).
      unfold print_defeat_message, print_border, press_enter in Ho.
      unfold bind, get, put, ret in Ho.
      destruct (Z.leb_spec (Character.get_health p') 0) as [Hdead|Halive];
        subst o; wsimpl; rewrite Finv, Fen; subst w0; wsimpl;
        (split; [revert E1; unfold Frame.extends; wsimpl; tauto|]);
        (split; [reflexivity|]); (split; [reflexivity|]).
      * destruct Ftgt as [->| ->]; [|lia].
        unfold Character.take_damage, Character.set_health,
          Character.get_health in *. cbn in *. lia.
      * exact Halive.
    + subst o. cbn [final_world]. rewrite Finv, Fen. subst w0. wsimpl.
      split; [eapply extends_trans; eassumption|]. repeat split.
  - unfold bind, press_enter, ret in Ho. subst o. wsimpl.
    split; [apply extends_refl|]. repeat split. exact Hp.
Qed.

(** What one round of the loop does to a world in which both combatants
    are alive. *)
Lemma combat_round_post (w : World) :
  0 < Character.get_health (player w) ->
  0 < Character.get_health (enemy w) ->
  let o := combat_round w in
  let w' := final_world o in
  Frame.extends w w'
  /\ Frame.same_but_health (enemy w) (enemy w')
  /\ Inventory.equipment (inventory w') = Inventory.equipment (inventory w)
  /\ match o with
     | Ret (Return true) _ =>
         Character.get_health (enemy w') = 0
         /\ Inventory.gold (inventory w')
            = Inventory.gold (inventory w) + Character.damage (enemy w) * 5
         /\ Frame.holds_at_least (inventory w) (inventory w')
         /\ (Wellformed.inventory (inventory w) ->
             Wellformed.inventory (inventory w'))
     | Ret (Return false) _ =>
         Character.get_health (player w') = 0
         /\ 0 < Character.get_health (enemy w')
         /\ inventory w' = inventory w
     | Ret _ _ =>
         0 < Character.get_health (player w')
         /\ 0 < Character.get_health (enemy w')
         /\ inventory w' = inventory w
     | Raise _ _ => inventory w' = inventory w
     end.
Proof.
  intros Hp He o. assert (Ho : o = combat_round w) by reflexivity.
  clearbody o. cbv zeta. rewrite combat_round_unfold in Ho.
  destruct (get_valid_input_from _ _) as [[choice rest]|] eqn:Ein.
  - apply get_valid_input_from_suffix in Ein.
    set (w0 := with_stdin w rest) in *.
    assert (E0 : Frame.extends w w0).
    { subst w0. unfold Frame.extends. wsimpl.
      repeat split; try reflexivity. exact Ein. }
    pose proof (player_action_post choice (snd (menu w)) w0 Hp He)
      as (Aext & Asame & Aeq & Acase).
    cbv zeta in *.
    destruct (player_action choice (snd (menu w)) w0) as [c w1|e w1];
      cbn [final_world] in *.
    + destruct c as [| |[|]].
      * destruct Acase as (Hp1 & He1 & Hinv1).
        pose proof (enemy_turn_post w1 Hp1) as (Text & Tinv & Ten & Tcase).
        cbv zeta in *. subst o.
        destruct (enemy_turn w1) as [c2 w2|e2 w2]; cbn [final_world] in *.
        -- rewrite Ten, Tinv, Hinv1. subst w0. wsimpl.
           split; [eapply extends_trans; [exact E0|];
                   eapply extends_trans; eassumption|].
           split; [exact Asame|]. split; [reflexivity|].
           destruct c2 as [| |[|]]; try contradiction; repeat split; auto.
        -- rewrite Ten, Tinv, Hinv1. subst w0. wsimpl.
           split; [eapply extends_trans; [exact E0|];
                   eapply extends_trans; eassumption|].
           split; [exact Asame|]. split; reflexivity.
      * subst o. cbn [final_world].
        split; [eapply extends_trans; eassumption|].
        split; [exact Asame|]. split; [exact Aeq|]. exact Acase.
      * subst o. cbn [final_world].
        split; [eapply extends_trans; eassumption|].
        split; [exact Asame|]. split; [exact Aeq|]. exact Acase.
      * contradiction.
    + subst o. cbn [final_world].
      split; [eapply extends_trans; eassumption|].
      split; [exact Asame|]. split; [exact Aeq|]. exact Acase.
  - subst o. wsimpl.
    split.
    { unfold Frame.extends. wsimpl. repeat split; try reflexivity.
      apply suffix_nil. }
    split; [apply same_but_health_refl|]. split; reflexivity.
Qed.

(** What a call of [combat] does, whatever the bound on its rounds. *)
Lemma combat_post (fuel : nat) (w : World) :
  let o := combat fuel w in
  let w' := final_world o in
  Frame.extends w w'
  /\ Frame.same_but_health (enemy w) (enemy w')
  /\ Inventory.equipment (inventory w') = Inventory.equipment (inventory w)
  /\ match o with
     | Ret (Returned true) _ =>
         Character.get_health (enemy w') = 0
         /\ Inventory.gold (inventory w')
            = Inventory.gold (inventory w) + Character.damage (enemy w) * 5
         /\ Frame.holds_at_least (inventory w) (inventory w')
         /\ (Wellformed.inventory (inventory w) ->
             Wellformed.inventory (inventory w'))
     | Ret (Returned false) _ =>
         Character.get_health (player w') = 0
         /\ 0 < Character.get_health (enemy w')
         /\ inventory w' = inventory w
     | Ret LoopLeft _ =>
         w' = w
         /\ (Character.get_health (player w) <= 0
             \/ Character.get_health (enemy w) <= 0)
     | Ret OutOfFuel _ => inventory w' = inventory w
     | Raise _ _ => inventory w' = inventory w
     end.
Proof.
  revert w. induction fuel as [|fuel IH]; intros w.
  - cbn. split; [apply extends_refl|]. split; [apply same_but_health_refl|].
    split; reflexivity.
  - intros o. assert (Ho : o = combat (S fuel) w) by reflexivity.
    clearbody o. cbv zeta. rewrite combat_unfold in Ho.
    destruct (Z.ltb_spec 0 (Character.get_health (player w))) as [Hp|Hp];
      [destruct (Z.ltb_spec 0 (Character.get_health (enemy w))) as [He|He]|];
      cbn [andb] in Ho.
    + pose proof (combat_round_post w Hp He) as (Rext & Rsame & Req & Rcase).
      cbv zeta in *.
      destruct (combat_round w) as [c w1|e w1]; cbn [final_world] in *.
      * destruct c as [| |b]; cbv beta iota in Ho.
        -- destruct Rcase as (Hp1 & He1 & Hinv1).
           subst o.
           specialize (IH w1) as (Iext & Isame & Ieq & Icase).
           cbv zeta in *.
           split; [eapply extends_trans; eassumption|].
           split; [eapply same_but_health_trans; eassumption|].
           split; [congruence|].
           destruct (combat fuel w1) as [[[|]| |] w2|e2 w2];
             cbn [final_world] in *.
           ++ destruct Icase as (I1 & I2 & I3 & I4).
              rewrite <- Hinv1, <- (same_but_health_damage _ _ Rsame).
              tauto.
           ++ destruct Icase as (I1 & I2 & I3). repeat split; congruence.
           ++ destruct Icase as (_ & [I|I]); lia.
           ++ congruence.
           ++ congruence.
        -- destruct Rcase as (Hp1 & He1 & Hinv1).
           subst o.
           specialize (IH w1) as (Iext & Isame & Ieq & Icase).
           cbv zeta in *.
           split; [eapply extends_trans; eassumption|].
           split; [eapply same_but_health_trans; eassumption|].
           split; [congruence|].
           destruct (combat fuel w1) as [[[|]| |] w2|e2 w2];
             cbn [final_world] in *.
           ++ destruct Icase as (I1 & I2 & I3 & I4).
              rewrite <- Hinv1, <- (same_but_health_damage _ _ Rsame).
              tauto.
           ++ destruct Icase as (I1 & I2 & I3). repeat split; congruence.
           ++ destruct Icase as (_ & [I|I]); lia.
           ++ congruence.
           ++ congruence.
        -- subst o. cbn [final_world].
           split; [exact Rext|]. split; [exact Rsame|]. split; [exact Req|].
           destruct b; exact Rcase.
      * subst o. cbn [final_world].
        split; [exact Rext|]. split; [exact Rsame|]. split; [exact Req|].
        exact Rcase.
    + subst o. cbn [final_world].
      split; [apply extends_refl|]. split; [apply same_but_health_refl|].
      split; [reflexivity|]. split; [reflexivity|]. right. exact He.
    + subst o. cbn [andb final_world].
      split; [apply extends_refl|]. split; [apply same_but_health_refl|].
      split; [reflexivity|]. split; [reflexivity|]. left. exact Hp.
Qed.

Lemma str_in_In (x : string) (xs : list string) :
  Py.str_in x xs = true <-> In x xs.
Proof.
  unfold Py.str_in. rewrite existsb_exists. split.
  - intros (y & Hy & E). apply String.eqb_eq in E. subst. exact Hy.
  - intros H. exists x. split; [exact H|apply String.eqb_refl].
Qed.

Lemma get_valid_input_from_spec options lines :
  match get_valid_input_from options lines with
  | Some (choice, rest) =>
      exists skipped line,
        lines = (skipped ++ line :: rest)%list
        /\ choice = Py.strip line
        /\ In choice options
        /\ Forall (fun l => ~ In (Py.strip l) options) skipped
  | None => Forall (fun l => ~ In (Py.strip l) options) lines
  end.
Proof.
  induction lines as [|l ls IH]; cbn [get_valid_input_from].
  - constructor.
  - destruct (Py.str_in (Py.strip l) options) eqn:E.
    + exists [], l. split; [reflexivity|]. split; [reflexivity|].
      split; [apply str_in_In; exact E|constructor].
    + assert (Hl : ~ In (Py.strip l) options).
      { intros H. apply str_in_In in H. congruence. }
      destruct (get_valid_input_from options ls) as [[choice rest]|].
      * destruct IH as (skipped & line & -> & Hc & Hin & Hall).
        exists (l :: skipped), line. split; [reflexivity|].
        split; [exact Hc|]. split; [exact Hin|]. constructor; assumption.
      * constructor; assumption.
Qed.

(** X8. [get_valid_input] on ASCII console lines: the value returned is
    one of the options and is the first console line that, stripped, is
    an option; the lines before it are read and dropped, the lines after
    it are left, and nothing but the console changes.  The call raises
    only when the input ends ([EOFError]), and then no line was an
    option. *)
Theorem get_valid_input_first_option (options : list string) (w : World) :
  Forall (fun l => PyText.is_ascii l = true) (stdin w) ->
  match get_valid_input options w with
  | Ret choice w' =>
      In choice options
      /\ w' = with_stdin w (stdin w')
      /\ exists skipped line,
          stdin w = (skipped ++ line :: stdin w')%list
          /\ choice = Py.strip line
          /\ Forall (fun l => ~ In (Py.strip l) options) skipped
  | Raise e w' =>
      e = Py.EOFError
      /\ w' = with_stdin w []
      /\ Forall (fun l => ~ In (Py.strip l) options) (stdin w)
  end.
Proof.
  intros _. unfold get_valid_input.
  pose proof (get_valid_input_from_spec options (stdin w)) as H.
  destruct (get_valid_input_from options (stdin w)) as [[choice rest]|].
  - destruct H as (skipped & line & Hl & Hc & Hin & Hall).
    split; [exact Hin|]. split; [reflexivity|].
    exists skipped, line. wsimpl. split; [exact Hl|].
    split; [exact Hc|exact Hall].
  - split; [reflexivity|]. split; [reflexivity|exact H].
Qed.

(** X8 at the action menu without sidekick: "x" is dropped, " 1 " is
    read as the choice 1, and "2" is left on the console. *)
Lemma get_valid_input_first_option_witness :
  get_valid_input ["1"; "2"; "3"] (Scenario.opening ["x"; " 1 "; "2"])
  = Ret "1" (Scenario.opening ["2"])
  /\ In "1" ["1"; "2"; "3"].
Proof.
  assert (E : get_valid_input ["1"; "2"; "3"]
                (Scenario.opening ["x"; " 1 "; "2"])
              = Ret "1" (Scenario.opening ["2"])) by reflexivity.
  split; [exact E|].
  pose proof (get_valid_input_first_option ["1"; "2"; "3"]
                (Scenario.opening ["x"; " 1 "; "2"])
                ltac:(repeat constructor)) as H.
  rewrite E in H. exact (proj1 H).
Defined.

(** X9. What a call of [combat] never undoes, however it ends (return or
    exception): the log and the call trace only grow at their end, the
    console is only read forward, the count of random draws only grows;
    the sidekicks, the random source, the clock and the debug flag are
    untouched; the enemy differs from the one passed in by its health at
    most; and the equipment slots stay as they are. *)
Theorem combat_only_extends (fuel : nat) (w : World) :
  let w' := final_world (combat fuel w) in
  Frame.extends w w'
  /\ Frame.same_but_health (enemy w) (enemy w')
  /\ Inventory.equipment (inventory w') = Inventory.equipment (inventory w).
Proof.
  pose proof (combat_post fuel w) as (H1 & H2 & H3 & _).
  cbv zeta in *. auto.
Qed.

(** X10. The verdicts of [combat] are sound.  [True] is returned only
    with the enemy at health 0, [False] only with the player at health 0
    and the enemy alive.  [None] (the loop condition failing) is returned
    only when the call started with a combatant at health 0 or below,
    and then nothing at all has happened: after a round that does not
    return, both combatants are alive. *)
Theorem combat_verdict_sound (fuel : nat) (w : World) :
  match combat fuel w with
  | Ret (Returned true) w' => Character.get_health (enemy w') = 0
  | Ret (Returned false) w' =>
      Character.get_health (player w') = 0
      /\ 0 < Character.get_health (enemy w')
  | Ret LoopLeft w' =>
      w' = w
      /\ (Character.get_health (player w) <= 0
          \/ Character.get_health (enemy w) <= 0)
  | Ret OutOfFuel _ => True
  | Raise _ _ => True
  end.
Proof.
  pose proof (combat_post fuel w) as (_ & _ & _ & H).
  cbv zeta in H.
  destruct (combat fuel w) as [[[|]| |] w'|e w']; cbn [final_world] in H;
    tauto.
Qed.

(** X11. The inventory changes only through the loot of a victory.  When
    [combat] returns [True], the gold has grown by five times the damage
    of the enemy, every stack is still there with its item and at least
    its quantity, and a well-formed inventory is still well formed; in
    every other case (defeat, [None], an exception) the inventory is the
    one the call started with. *)
Theorem combat_inventory_changes_on_victory_only (fuel : nat) (w : World) :
  match combat fuel w with
  | Ret (Returned true) w' =>
      Inventory.gold (inventory w')
      = Inventory.gold (inventory w) + Character.damage (enemy w) * 5
      /\ Frame.holds_at_least (inventory w) (inventory w')
      /\ (Wellformed.inventory (inventory w) ->
          Wellformed.inventory (inventory w'))
  | Ret _ w' => inventory w' = inventory w
  | Raise _ w' => inventory w' = inventory w
  end.
Proof.
  pose proof (combat_post fuel w) as (_ & _ & _ & H).
  cbv zeta in H.
  destruct (combat fuel w) as [[[|]| |] w'|e w']; cbn [final_world] in H;
    try tauto.
  destruct H as (-> & _). reflexivity.
Qed.

Lemma combat_fuel_step (fuel : nat) (w : World) :
  (List.length (stdin w) < fuel)%nat ->
  combat (S fuel) w = combat fuel w.
Proof.
  revert w. induction fuel as [|fuel IH]; intros w Hlen; [lia|].
  rewrite (combat_unfold (S fuel)), (combat_unfold fuel).
  destruct (_ && _); [|reflexivity].
  destruct (combat_round w) as [c w1|e w1] eqn:Er; [|reflexivity].
  apply combat_round_consumes in Er.
  destruct c as [| |b]; try reflexivity; apply IH; lia.
Qed.

(** X12. The bound on the rounds is no restriction: a round that
    returns has read at least one console line, so every bound above the
    number of lines gives the same outcome as [run_combat], and that
    outcome is a verdict of the source or an exception, never the
    model's "out of fuel". *)
Theorem combat_outcome_independent_of_fuel (fuel : nat) (w : World) :
  (List.length (stdin w) < fuel)%nat ->
  combat fuel w = run_combat w
  /\ forall w', run_combat w <> Ret OutOfFuel w'.
Proof.
  intros Hlen. split.
  - unfold run_combat.
    replace fuel
      with ((fuel - S (List.length (stdin w))) + S (List.length (stdin w)))%nat
      by lia.
    induction (fuel - S (List.length (stdin w)))%nat as [|n IHn];
      [reflexivity|].
    cbn [Nat.add]. rewrite combat_fuel_step by lia. exact IHn.
  - intros w'. unfold run_combat. apply combat_fuel_suffices. lia.
Qed.

(** X12 at the opening world with one line of input: five rounds of
    fuel, or a hundred, give what two give. *)
Lemma combat_outcome_independent_of_fuel_witness :
  combat 5 (Scenario.opening ["1"]) = run_combat (Scenario.opening ["1"])
  /\ combat 100 (Scenario.opening ["1"])
     = run_combat (Scenario.opening ["1"]).
Proof.
  split.
  - refine (proj1 (combat_outcome_independent_of_fuel 5
                     (Scenario.opening ["1"]) _)). concrete.
  - refine (proj1 (combat_outcome_independent_of_fuel 100
                     (Scenario.opening ["1"]) _)). concrete.
Defined.

End EngineFacts.

(** ** Setting the game up and running it *)

Section RunFacts.

Import Game.

Lemma length_lower (s : string) :
  String.length (Py.lower s) = String.length s.
Proof. induction s as [|c s IH]; cbn; congruence. Qed.

Lemma length_rev_onto (s acc : string) :
  String.length (Py.rev_onto s acc)
  = (String.length s + String.length acc)%nat.
Proof.
  revert acc. induction s as [|c s IH]; intros acc; cbn; [reflexivity|].
  rewrite IH. cbn. lia.
Qed.

Lemma length_lstrip (s : string) :
  (String.length (Py.lstrip s) <= String.length s)%nat.
Proof.
  induction s as [|c s IH]; cbn; [lia|].
  destruct (Py.isspace c); cbn; lia.
Qed.

Lemma length_strip (s : string) :
  (String.length (Py.strip s) <= String.length s)%nat.
Proof.
  unfold Py.strip, Py.rev. rewrite length_rev_onto. cbn.
  pose proof (length_lstrip (Py.rev_onto (Py.lstrip s) EmptyString)) as H.
  rewrite length_rev_onto in H. cbn in H.
  pose proof (length_lstrip s). lia.
Qed.

(** [int(choice)] raises nothing on the choice made of a plain line. *)
Lemma int_of_str_plain (line : string) :
  PyText.plain line = true ->
  PyText.int_of_str (Py.lower (Py.strip line))
  = Py.Ok (PyText.int_of_digits (Py.lower (Py.strip line))).
Proof.
  unfold PyText.plain, PyText.int_of_str. intros H.
  apply andb_true_iff in H as [_ H]. apply Nat.leb_le in H.
  rewrite length_lower.
  pose proof (length_strip line).
  destruct (Nat.leb_spec (String.length (Py.strip line))
              PyText.max_str_digits); [reflexivity|lia].
Qed.

(** A weapon that [choose_weapon] returns is one of the list, and at
    least one line was read for it. *)
Lemma choose_weapon_from_ok weapons lines wd rest :
  Run.choose_weapon_from weapons lines = Py.Ok (wd, rest) ->
  In wd weapons
  /\ exists read, read <> [] /\ lines = (read ++ rest)%list.
Proof.
  revert wd rest. induction lines as [|line ls IH]; intros wd rest H;
    [discriminate|].
  cbn [Run.choose_weapon_from] in H.
  assert (Hcons : forall r, ls = (r ++ rest)%list ->
            exists read, read <> [] /\ line :: ls = (read ++ rest)%list).
  { intros r ->. exists (line :: r). split; [discriminate|reflexivity]. }
  destruct (if PyText.isdigit _ then _ else _) as [[|]|e]; cbn [Py.rbind] in H;
    [| |discriminate].
  - destruct (PyText.int_of_str _) as [n|e]; cbn [Py.rbind] in H;
      [|discriminate].
    destruct (nth_error weapons _) as [x|] eqn:En; [|discriminate].
    injection H as <- <-. split; [eapply nth_error_In; exact En|].
    apply (Hcons []). reflexivity.
  - destruct (List.filter _ weapons) as [|x [|y l]] eqn:Ef.
    + destruct (IH _ _ H) as (Hin & r & _ & ->).
      split; [exact Hin|]. apply (Hcons r). reflexivity.
    + injection H as <- <-. split.
      * assert (Hx : In x (List.filter
                             (fun w => PyText.contains
                                         (Py.lower (Py.strip line))
                                         (Py.lower (fst w))) weapons))
          by (rewrite Ef; left; reflexivity).
        apply filter_In in Hx. tauto.
      * apply (Hcons []). reflexivity.
    + destruct (IH _ _ H) as (Hin & r & _ & ->).
      split; [exact Hin|]. apply (Hcons r). reflexivity.
Qed.

(** On plain lines, the only exception of [choose_weapon] is the end of
    the input. *)
Lemma choose_weapon_from_err rolls lines e :
  Forall (fun l => PyText.plain l = true) lines ->
  Run.choose_weapon_from (Run.weapons rolls) lines = Py.Err e ->
  e = Py.EOFError.
Proof.
  destruct rolls as [[r1 r2] r3].
  induction lines as [|line ls IH]; intros Hall H.
  - cbn in H. congruence.
  - inversion Hall as [|? ? Hline Hrest]; subst.
    cbn [Run.choose_weapon_from] in H.
    rewrite (int_of_str_plain line Hline) in H.
    set (n := PyText.int_of_digits (Py.lower (Py.strip line))) in *.
    assert (Hby : (if PyText.isdigit (Py.lower (Py.strip line))
                   then Py.rbind (Py.Ok n)
                          (fun n0 =>
                             Py.Ok ((1 <=? n0) &&
                                    (n0 <=? Z.of_nat
                                       (List.length
                                          (Run.weapons (r1, r2, r3))))))
                   else Py.Ok false)
                  = Py.Ok (PyText.isdigit (Py.lower (Py.strip line))
                           && ((1 <=? n) && (n <=? 3)))).
    { destruct (PyText.isdigit _); reflexivity. }
    rewrite Hby in H. cbn [Py.rbind] in H.
    destruct (PyText.isdigit _ && _) eqn:Eb.
    + apply andb_true_iff in Eb as [_ Eb].
      apply andb_true_iff in Eb as [E1 E2].
      apply Z.leb_le in E1, E2.
      assert (Hn : n = 1 \/ n = 2 \/ n = 3) by lia.
      destruct Hn as [-> | [-> | ->]]; discriminate H.
    + destruct (List.filter _ _) as [|x [|y l]]; try discriminate;
        apply IH; assumption.
Qed.

(** X13. [choose_weapon]: whatever is typed, the weapon returned is one
    of the three offered, with the bonus rolled for it, and at least one
    line has been read for it.  On plain lines (ASCII, no longer than
    [int] converts) the only exception is [EOFError] at the end of the
    input: the subscript [weapons[int(choice) - 1]] is always in
    range. *)
Theorem choose_weapon_returns_an_offer
    (rolls : Z * Z * Z) (lines : list string) :
  Forall (fun l => PyText.plain l = true) lines ->
  match Run.choose_weapon rolls lines with
  | Py.Ok (name, bonus, rest) =>
      In (name, bonus) (Run.weapons rolls)
      /\ exists read, read <> [] /\ lines = (read ++ rest)%list
  | Py.Err e => e = Py.EOFError
  end.
Proof.
  intros Hall. unfold Run.choose_weapon.
  destruct (Run.choose_weapon_from (Run.weapons rolls) lines)
    as [[[name bonus] rest]|e] eqn:E.
  - exact (choose_weapon_from_ok _ _ _ _ E).
  - exact (choose_weapon_from_err _ _ _ Hall E).
Qed.

(** X13 on four lines: an empty line and "r" match all three names and
    are asked again, "ro" selects the Rock, and the last line is left. *)
Lemma choose_weapon_returns_an_offer_witness :
  Run.choose_weapon (1, 2, 3) [EmptyString; "r"; "ro"; "x"]
  = Py.Ok ("Rock", 1, ["x"])
  /\ In ("Rock", 1) (Run.weapons (1, 2, 3)).
Proof.
  pose proof (choose_weapon_returns_an_offer (1, 2, 3)
                [EmptyString; "r"; "ro"; "x"]) as H.
  assert (E : Run.choose_weapon (1, 2, 3) [EmptyString; "r"; "ro"; "x"]
              = Py.Ok ("Rock", 1, ["x"])) by (vm_compute; reflexivity).
  rewrite E in H. split; [reflexivity|].
  apply H. repeat constructor.
Defined.

(** The player [setup_game] creates is built from one of the weapons
    offered, whose name is not empty. *)
Lemma setup_game_weapon
    (debug : bool) (name : string) (rolls : Z * Z * Z)
    (lines : list string) (p : Character.t) (rest : list string) :
  Run.setup_game debug name rolls lines = Py.Ok (p, rest) ->
  exists wn wb,
    In (wn, wb) (Run.weapons rolls)
    /\ p = Character.init name Constants.PLAYER_INITIAL_HEALTH
             Constants.PLAYER_INITIAL_DAMAGE (Some wn) wb 1 0 debug
    /\ Character.weapon p = Some (Weapon.Build wn wb).
Proof.
  unfold Run.setup_game, Run.choose_weapon.
  destruct (Run.choose_weapon_from (Run.weapons rolls) lines)
    as [[[wn wb] rest']|e] eqn:E; [|discriminate].
  intros [= <- <-].
  apply choose_weapon_from_ok in E as [Hin _].
  exists wn, wb. split; [exact Hin|]. split; [reflexivity|].
  destruct rolls as [[r1 r2] r3].
  destruct Hin as [H|[H|[H|[]]]]; injection H as <- <-; reflexivity.
Qed.

(** X14. The player [setup_game] creates, for bonuses rolled between 1
    and 5: a plain [Character] of the name given, at health 110, base
    damage 10, level 1 with no experience and 100 points to go, who
    carries one of the three weapons and hits for 11 to 15. *)
Theorem setup_game_player
    (debug : bool) (name : string) (rolls : Z * Z * Z)
    (lines : list string) (player : Character.t) (rest : list string) :
  Forall (fun wd => 1 <= snd wd <= 5) (Run.weapons rolls) ->
  Run.setup_game debug name rolls lines = Py.Ok (player, rest) ->
  Character.class player = Character.Character
  /\ Character.name player = name
  /\ Character.get_health player = Constants.PLAYER_INITIAL_HEALTH
  /\ Character.damage player = Constants.PLAYER_INITIAL_DAMAGE
  /\ CharacterQueries.get_level player = 1
  /\ CharacterQueries.get_experience player = 0
  /\ CharacterQueries.get_experience_to_next_level player = 100
  /\ Character.debug_mode player = debug
  /\ (exists wd, In wd (Run.weapons rolls)
                 /\ Character.weapon player
                    = Some (Weapon.Build (fst wd) (snd wd)))
  /\ 11 <= Character.calculate_damage player (Character.damage player) <= 15.
Proof.
  intros Hrolls Hs.
  destruct (setup_game_weapon _ _ _ _ _ _ Hs) as (wn & wb & Hin & Hp & Hw).
  pose proof (proj1 (List.Forall_forall _ _) Hrolls _ Hin) as Hb.
  cbn [snd] in Hb.
  assert (Hdmg : Character.damage player = 10) by (subst player; reflexivity).
  assert (Htotal : Character.calculate_damage player
                     (Character.damage player) = 10 + wb).
  { unfold Character.calculate_damage. rewrite Hw, Hdmg. reflexivity. }
  rewrite Htotal.
  split; [subst player; reflexivity|].
  split; [subst player; reflexivity|].
  split; [subst player; reflexivity|].
  split; [exact Hdmg|].
  split; [subst player; reflexivity|].
  split; [subst player; reflexivity|].
  split; [subst player; reflexivity|].
  split; [subst player; reflexivity|].
  split; [exists (wn, wb); split; [exact Hin|exact Hw]|].
  lia.
Qed.

(** X14 for the player who types "2" at the weapon prompt. *)
Lemma setup_game_player_witness :
  exists player,
    Run.setup_game false "Alice" (1, 4, 3) ["2"] = Py.Ok (player, [])
    /\ 11 <= Character.calculate_damage player (Character.damage player)
       <= 15.
Proof.
  eexists. split; [reflexivity|].
  destruct (setup_game_player false "Alice" (1, 4, 3) ["2"] _ []
              ltac:(repeat constructor; cbn; lia) eq_refl)
    as (_ & _ & _ & _ & _ & _ & _ & _ & _ & H).
  exact H.
Defined.

(** X15. [choose_sidekick] never gets to its prompt: building the list
    of offers subscripts [HEALING_SPIRIT] with "description", a key
    the dict of [constants.py] does not have (its key is
    "ability_description"), so every call raises [KeyError], before
    any line is read and with the game unchanged. *)
Theorem choose_sidekick_raises_KeyError (w : World) :
  Run.choose_sidekick w = Run.Raise Run.KeyError w
  /\ Constants.HEALING_SPIRIT !! "description" = None
  /\ is_Some (Constants.HEALING_SPIRIT !! "ability_description").
Proof.
  split; [|split].
  - unfold Run.choose_sidekick.
    assert (E : Run.offers = Run.Err Run.KeyError) by (vm_compute; reflexivity).
    rewrite E. reflexivity.
  - vm_compute. reflexivity.
  - eexists. vm_compute. reflexivity.
Qed.

Lemma choose_sidekick_KeyError (w : World) :
  Run.choose_sidekick w = Run.Raise Run.KeyError w.
Proof.
  unfold Run.choose_sidekick.
  assert (E : Run.offers = Run.Err Run.KeyError) by (vm_compute; reflexivity).
  rewrite E. reflexivity.
Qed.

(** The sequence of encounters, by the outcome of the first of them. *)
Lemma handle_boss_battles_unfold (b1 b2 : Character.t)
    (rest : list Character.t) (w : World) :
  Run.handle_boss_battles (b1 :: b2 :: rest) w
  = match run_combat (with_enemy w b1) with
    | Ret (Returned true) w1 => Run.Raise Run.KeyError w1
    | Ret _ w1 => Run.Ret Run.Defeat w1
    | Raise e w1 => Run.Raise (Run.Core e) w1
    end.
Proof.
  unfold Run.handle_boss_battles. cbn [Run.battles Nat.eqb].
  unfold Run.bind, Run.ret, Run.lift_game.
  pose proof (run_combat_total (with_enemy w b1)) as Htot.
  destruct (run_combat (with_enemy w b1)) as [[[|]| |] w1|e w1].
  - rewrite choose_sidekick_KeyError. reflexivity.
  - reflexivity.
  - reflexivity.
  - exfalso. exact (Htot w1 eq_refl).
  - reflexivity.
Qed.

(** X16. With two bosses or more, [handle_boss_battles] never reaches
    [end_game(True)].  A first encounter that is won runs into the
    [KeyError] of [choose_sidekick] (the enemy of the second encounter is
    never fought); one that is lost, or that returns [None], ends in
    [end_game(False)]; an exception of the encounter is passed on. *)
Theorem handle_boss_battles_never_won
    (b1 b2 : Character.t) (rest : list Character.t) (w : World) :
  Run.handle_boss_battles (b1 :: b2 :: rest) w
  = match run_combat (with_enemy w b1) with
    | Ret (Returned true) w1 => Run.Raise Run.KeyError w1
    | Ret _ w1 => Run.Ret Run.Defeat w1
    | Raise e w1 => Run.Raise (Run.Core e) w1
    end
  /\ forall w',
      Run.handle_boss_battles (b1 :: b2 :: rest) w <> Run.Ret Run.Victory w'.
Proof.
  split; [apply handle_boss_battles_unfold|].
  intros w'. rewrite handle_boss_battles_unfold.
  destruct (run_combat (with_enemy w b1)) as [[[|]| |] w1|e w1];
    discriminate.
Qed.

(** The turn of an enemy of class [Character] or [Boss]. *)
Lemma enemy_turn_plain (w : World) :
  Character.class (enemy w) = Character.Character \/
  Character.class (enemy w) = Character.Boss ->
  0 < Character.get_health (enemy w) ->
  let total :=
    Character.calculate_damage (enemy w) (Character.damage (enemy w)) in
  let p' := Character.take_damage (player w) total in
  let w' :=
    with_player
      (with_logger (with_trace w (trace w ++ [CallEnemyAttack]))
         (GameLogger.log_combat (now w) (logger w)
            (Character.name (enemy w)) (Character.name (player w))
            total None)) p' in
  enemy_turn w
  = if Character.get_health p' <=? 0 then Ret (Return false) w'
    else Ret Continue w'.
Proof.
  intros Hc He total p' w'. unfold enemy_turn.
  unfold bind at 1. unfold get at 1.
  destruct (Z.ltb_spec 0 (Character.get_health (enemy w))); [|lia].
  unfold bind at 1. unfold emit at 1. unfold bind at 1.
  rewrite call_attack_plain by exact Hc.
  cbv zeta. unfold bind, get, put, ret, print_defeat_message, print_border,
    press_enter.
  cbn [player enemy logger trace with_logger with_trace with_player].
  fold total. fold p'.
  destruct (Character.get_health p' <=? 0); reflexivity.
Qed.

(** One round of the first encounter. *)
Lemma first_battle_round (w : World) :
  FirstBattle.invariant w ->
  0 < Character.get_health (player w) ->
  0 < Character.get_health (enemy w) ->
  match combat_round w with
  | Ret (Return true) _ => True
  | Ret (Return false) _ => False
  | Ret _ w' => FirstBattle.invariant w'
  | Raise e _ => e = Py.EOFError
  end.
Proof.
  intros (Hc & Hb & Hsk & Hcons & Hdp & Hde & Hd8 & Hxp & Hinv) Hp He.
  rewrite combat_round_unfold.
  pose proof (get_valid_input_from_spec (fst (menu w)) (stdin w)) as Hin.
  assert (Hmenu : menu w = (["1"; "2"; "3"], "3")).
  { unfold menu. rewrite Hsk. reflexivity. }
  rewrite Hmenu in *. cbn [fst snd] in *.
  destruct (get_valid_input_from _ _) as [[choice rest]|]; [|reflexivity].
  destruct Hin as (skipped & line & _ & _ & Hin & _).
  set (w0 := with_stdin w rest).
  destruct Hin as [<-|[<-|[<-|[]]]].
  - (* attack *)
    destruct (Z_le_gt_dec
                (Character.get_health (enemy w0)
                 - Character.calculate_damage (player w0)
                     (Character.damage (player w0))) 0) as [Hkill|Hsurv].
    + assert (Hg : exists p',
                 Character.gain_experience (player w0)
                   (Character.damage (enemy w0) * 10)
                 = Py.Ok (false, p')).
      { subst w0. wsimpl. unfold Character.gain_experience. rewrite Hd8.
        cbn [Character.experience Character.experience_to_next_level].
        destruct (Z.leb_spec (Character.experience_to_next_level (player w))
                    (Character.experience (player w) + 8 * 10)); [lia|].
        eexists. reflexivity. }
      destruct Hg as (p' & Hg).
      destruct (player_action_attack_kill w0 "3" false p' Hc Hkill Hg)
        as (w' & Hpa & _).
      rewrite Hpa. exact I.
    + rewrite (player_action_attack_survive w0 "3" Hc) by lia.
      rewrite enemy_turn_plain; wsimpl; cbv zeta.
      * subst w0. wsimpl.
        unfold Character.take_damage, Character.set_health,
          Character.with_health, Character.get_health,
          Character.calculate_damage in *.
        cbn [Character._health Character.class Character.name
             Character.damage Character.weapon Character.is_boss
             Character.level Character.experience
             Character.experience_to_next_level Character.debug_mode] in *.
        rewrite Hde.
        destruct (Z.leb_spec (Z.max 0 (Character._health (player w) - 8)) 0)
          as [Hd|Ha].
        -- lia.
        -- unfold FirstBattle.invariant. wsimpl.
           unfold Character.calculate_damage, Character.get_health.
           cbn [Character._health Character.class Character.name
                Character.damage Character.weapon Character.is_boss
                Character.level Character.experience
                Character.experience_to_next_level Character.debug_mode].
           repeat split; try assumption. lia.
      * right. subst w0. wsimpl. exact Hb.
      * subst w0. wsimpl.
        unfold Character.take_damage, Character.set_health,
          Character.with_health, Character.get_health in *. cbn. lia.
  - (* use item: there is nothing to use *)
    rewrite player_action_use_item.
    rewrite use_item_nothing_to_use by (subst w0; wsimpl; exact Hcons).
    subst w0. unfold FirstBattle.invariant. wsimpl.
    repeat split; assumption.
  - (* view inventory *)
    pose proof (player_action_view_inventory w0) as Hv.
    assert (Hm0 : menu w0 = (["1"; "2"; "3"], "3")).
    { unfold menu. subst w0. wsimpl. rewrite Hsk. reflexivity. }
    rewrite Hm0 in Hv. cbn [snd] in Hv. rewrite Hv.
    subst w0. unfold FirstBattle.invariant. wsimpl.
    repeat split; assumption.
Qed.

(** The first encounter ends in a victory or at the end of the input. *)
Lemma first_battle (fuel : nat) (w : World) :
  FirstBattle.invariant w ->
  0 < Character.get_health (player w) ->
  0 < Character.get_health (enemy w) ->
  match combat fuel w with
  | Ret (Returned true) _ => True
  | Ret OutOfFuel _ => True
  | Ret _ _ => False
  | Raise e _ => e = Py.EOFError
  end.
Proof.
  revert w. induction fuel as [|fuel IH]; intros w Hinv Hp He; [exact I|].
  rewrite combat_unfold.
  destruct (Z.ltb_spec 0 (Character.get_health (player w))); [|lia].
  destruct (Z.ltb_spec 0 (Character.get_health (enemy w))); [|lia].
  cbn [andb].
  pose proof (first_battle_round w Hinv Hp He) as Hr.
  pose proof (combat_round_post w Hp He) as (_ & _ & _ & Hpost).
  cbv zeta in Hpost.
  destruct (combat_round w) as [[| |[|]] w1|e w1]; cbn [final_world] in *.
  - apply IH; tauto.
  - apply IH; tauto.
  - exact I.
  - contradiction.
  - exact Hr.
Qed.

(** The first world of a game satisfies the invariant of the first
    encounter. *)
Lemma first_battle_start debug name rolls lines p rest random clock :
  Forall (fun wd => 1 <= snd wd <= 5) (Run.weapons rolls) ->
  Run.setup_game debug name rolls lines = Py.Ok (p, rest) ->
  let w := with_enemy
             (Build [] Inventory.init (GameLogger.init true) debug p
                (hd p Run.bosses) rest random 0 clock [])
             (Boss.init Constants.GOBLIN_KING_NAME
                Constants.GOBLIN_KING_HEALTH Constants.GOBLIN_KING_DAMAGE
                None 0) in
  FirstBattle.invariant w
  /\ 0 < Character.get_health (player w)
  /\ 0 < Character.get_health (enemy w).
Proof.
  intros Hrolls Hs w.
  destruct (setup_game_weapon _ _ _ _ _ _ Hs) as (wn & wb & Hin & Hp & Hw).
  pose proof (proj1 (List.Forall_forall _ _) Hrolls _ Hin) as Hb.
  cbn [snd] in Hb.
  assert (Htotal : Character.calculate_damage p (Character.damage p)
                   = 10 + wb).
  { unfold Character.calculate_damage. rewrite Hw. subst p. reflexivity. }
  subst w. unfold FirstBattle.invariant. wsimpl. rewrite Htotal.
  split; [|split; [subst p|]; vm_compute; reflexivity].
  split; [subst p; reflexivity|]. split; [reflexivity|].
  split; [reflexivity|]. split; [reflexivity|]. split; [lia|].
  split; [reflexivity|]. split; [reflexivity|].
  split; [subst p; vm_compute; reflexivity|].
  subst p. vm_compute. discriminate.
Qed.

(** X17. A whole game, as [run] plays it, ends in an exception, whatever
    is typed: with the bonuses rolled between 1 and 5 and plain lines on
    the console, [run] ends either in the [EOFError] of a console that
    has no more lines, or, once the Goblin King is beaten, in the
    [KeyError] of [choose_sidekick].  The first encounter cannot be
    lost (the player is attacked at most four times, for 8 points each),
    its inventory is empty, so that [use_item] finds nothing to use and
    its [TypeError] cannot occur; the second and third encounter never
    start, and neither [end_game(True)] nor [end_game(False)] is ever
    called.  (The modules of the repository that are not among the
    sources, the console helpers and [Weapon], are as the model of the
    claims takes them.) *)
Theorem run_ends_in_an_exception
    (rolls : Z * Z * Z) (random : nat -> spec_float) (clock : nat -> string)
    (lines : list string) :
  Forall (fun wd => 1 <= snd wd <= 5) (Run.weapons rolls) ->
  Forall (fun l => PyText.plain l = true) lines ->
  Run.run rolls random clock lines = Run.NoGame (Run.Core Py.EOFError)
  \/ (exists w,
        Run.run rolls random clock lines
        = Run.Played (Run.Raise (Run.Core Py.EOFError) w))
  \/ (exists w,
        Run.run rolls random clock lines
        = Run.Played (Run.Raise Run.KeyError w)
        /\ Character.name (enemy w) = Constants.GOBLIN_KING_NAME
        /\ Character.get_health (enemy w) = 0).
Proof.
  intros Hrolls Hplain. unfold Run.run.
  destruct lines as [|line rest]; [left; reflexivity|].
  inversion Hplain as [|? ? Hline Hrest]; subst.
  destruct (Run.intro_name line) as [dbg pname].
  destruct (Run.setup_game dbg pname rolls rest) as [[player rest']|e] eqn:Es.
  - right.
    destruct (first_battle_start _ _ _ _ _ _ random clock Hrolls Es)
      as (Hinv & Hp & He).
    cbv zeta in *. unfold Run.bosses in *.
    rewrite !handle_boss_battles_unfold.
    set (w0 := with_enemy _ _) in *.
    pose proof (first_battle (S (List.length (stdin w0))) w0 Hinv Hp He)
      as Hfirst.
    pose proof (combat_post (S (List.length (stdin w0))) w0)
      as (_ & Hsame & _ & Hpost).
    pose proof (run_combat_total w0) as Htot.
    unfold run_combat in *. cbv zeta in *.
    destruct (combat (S (List.length (stdin w0))) w0)
      as [[[|]| |] w1|e w1]; cbn [final_world] in *.
    + right. exists w1. split; [reflexivity|]. split; [|tauto].
      rewrite Hsame. reflexivity.
    + contradiction.
    + contradiction.
    + exfalso. exact (Htot w1 eq_refl).
    + left. exists w1. rewrite Hfirst. reflexivity.
  - left. unfold Run.setup_game, Run.choose_weapon in Es.
    destruct (Run.choose_weapon_from (Run.weapons rolls) rest)
      as [[[wn wb] rest']|e'] eqn:E; [discriminate|].
    injection Es as <-.
    rewrite (choose_weapon_from_err _ _ _ Hrest E). reflexivity.
Qed.

(** X17 for a player who takes the Rock and attacks until the Goblin King
    falls: the game ends in the [KeyError], with one line unread. *)
Lemma run_ends_in_an_exception_witness :
  exists w,
    Run.run (1, 2, 3) (fun _ => S754_zero false) (fun _ => "12:00:00")
      ["bob"; "1"; "1"; "1"; "1"; "1"; "1"; "1"]
    = Run.Played (Run.Raise Run.KeyError w)
    /\ Character.get_health (enemy w) = 0
    /\ stdin w = ["1"].
Proof.
  destruct (run_ends_in_an_exception (1, 2, 3) (fun _ => S754_zero false)
              (fun _ => "12:00:00")
              ["bob"; "1"; "1"; "1"; "1"; "1"; "1"; "1"]
              ltac:(repeat constructor; cbn; lia)
              ltac:(repeat constructor))
    as [H|[(w & H)|(w & H & _ & Hz)]].
  - vm_compute in H. discriminate H.
  - vm_compute in H. discriminate H.
  - exists w. split; [exact H|]. split; [exact Hz|].
    vm_compute in H. injection H as <-. reflexivity.
Defined.

End RunFacts.

(** ** The chances of the loot *)

Section LootFacts.

Import Game.




End LootFacts.
